(** * IRRES location scraper: a shallow embedding of [scraper.py], [api.py]
    and [app.py], and the properties of the specification proved on it.

    Python values are modelled as follows.
    - A [str] is the list of its Unicode code points ([N]).
    - A [set] of strings is a [gset], a [dict] from strings to strings a
      [gmap]; iterating over a set yields its elements in an arbitrary order.
    - A parsed document is a tree of [PageElement]s, as built by
      [BeautifulSoup(html, 'html.parser')].
    - A call that can raise returns a [result]: [Ok v] or [Raise e].
    - An object with mutable fields is a record that is passed in and
      returned. *)

From stdpp Require Import base gmap sets list strings sorting pretty.

Local Open Scope N_scope.
#[local] Set Warnings "-register-all".

(** ** Strings *)

Abbreviation char := N.
Abbreviation str := (list N).

(** An ASCII literal of the source as a list of code points. *)
Definition py (s : string) : str :=
  map Ascii.N_of_ascii (String.list_ascii_of_string s).

(** [str.isspace] for one character: general category Zs, or bidirectional
    class WS, B or S (the table of CPython's [_PyUnicode_IsWhitespace]). *)
Definition isspace (c : char) : bool :=
  ((0x09 <=? c) && (c <=? 0x0D)) || ((0x1C <=? c) && (c <=? 0x20))
  || (c =? 0x85) || (c =? 0xA0) || (c =? 0x1680)
  || ((0x2000 <=? c) && (c <=? 0x200A))
  || (c =? 0x2028) || (c =? 0x2029) || (c =? 0x202F) || (c =? 0x205F)
  || (c =? 0x3000).

(** [s.lstrip()], [s.rstrip()] and [s.strip()] without argument. *)
Fixpoint lstrip (s : str) : str :=
  match s with
  | c :: s' => if isspace c then lstrip s' else s
  | [] => []
  end.

Definition rstrip (s : str) : str := rev (lstrip (rev s)).

Definition strip (s : str) : str := rstrip (lstrip s).

(** [s.lstrip(chars)] for a one-character argument. *)
Fixpoint lstrip_char (x : char) (s : str) : str :=
  match s with
  | c :: s' => if c =? x then lstrip_char x s' else s
  | [] => []
  end.

(** [s.split()] without argument: the maximal runs of non-whitespace
    characters.  [cur] is the run being read, reversed. *)
Fixpoint split_aux (cur : str) (s : str) : list str :=
  match s with
  | [] => match cur with [] => [] | _ => [rev cur] end
  | c :: s' =>
      if isspace c
      then match cur with
           | [] => split_aux [] s'
           | _ => rev cur :: split_aux [] s'
           end
      else split_aux (c :: cur) s'
  end.

Definition split (s : str) : list str := split_aux [] s.

(** [s.startswith(p)] and the substring test [p in s]. *)
Fixpoint startswith (p s : str) : bool :=
  match p, s with
  | [], _ => true
  | _ :: _, [] => false
  | a :: p', b :: s' => (a =? b) && startswith p' s'
  end.

Fixpoint contains (p s : str) : bool :=
  startswith p s ||
  match s with
  | [] => false
  | _ :: s' => contains p s'
  end.

(** Comparison of strings, [a <= b] and [a < b]: lexicographic on code
    points, a proper prefix being smaller. *)
Fixpoint str_leb (a b : str) : bool :=
  match a, b with
  | [], _ => true
  | _ :: _, [] => false
  | x :: a', y :: b' =>
      if x <? y then true else if x =? y then str_leb a' b' else false
  end.

Definition str_ltb (a b : str) : bool := negb (str_leb b a).

Definition str_le (a b : str) : Prop := str_leb a b = true.
Definition str_lt (a b : str) : Prop := str_ltb a b = true.

Global Instance str_le_dec a b : Decision (str_le a b).
Proof. unfold str_le. apply _. Defined.

(** [sorted(l)] for a list of strings.  Python's sort is a stable merge
    sort; on a total order its result is the one sorted permutation. *)
Definition sorted (l : list str) : list str := merge_sort str_le l.

(** The euro sign, U+20AC. *)
Definition EURO : str := [0x20AC].

(** ** Exceptions *)

(** The exception classes the code raises or catches.  [RequestException]
    stands for [requests.RequestException] and its subclasses
    ([ConnectionError], [Timeout], [HTTPError]); [HTTPException] is
    FastAPI's; [KeyboardInterrupt] derives from [BaseException] only. *)
Inductive exn :=
| RequestException (msg : str)
| IndexError (msg : str)
| HTTPException (status_code : Z) (detail : str)
| OtherException (msg : str)
| KeyboardInterrupt.

Definition is_RequestException (e : exn) : bool :=
  match e with RequestException _ => true | _ => false end.

(** [isinstance(e, Exception)] *)
Definition is_Exception (e : exn) : bool :=
  match e with KeyboardInterrupt => false | _ => true end.

(** [str(e)].  Starlette's [HTTPException.__str__] gives
    ["<status_code>: <detail>"]. *)
Definition str_of_exn (e : exn) : str :=
  match e with
  | RequestException msg | IndexError msg | OtherException msg => msg
  | HTTPException code detail => py (pretty code) ++ py ": " ++ detail
  | KeyboardInterrupt => []
  end.

(** [bs4.ParserRejectedMarkup], which the [BeautifulSoup] constructor
    raises when [html.parser] fails on the markup; it derives from
    [Exception]. *)
Definition ParserRejectedMarkup : exn :=
  OtherException (py "The markup you provided was rejected by the parser.").

Inductive result (A : Type) :=
| Ok (a : A)
| Raise (e : exn).
Arguments Ok {A} a.
Arguments Raise {A} e.

(** Sequencing: [x ← r; k] runs [k] on the value of [r], and raises what
    [r] raises. *)
Global Instance result_ret : MRet result := λ A a, Ok a.
Global Instance result_bind : MBind result := λ A B k r,
  match r with
  | Ok a => k a
  | Raise e => Raise e
  end.
Global Instance result_fmap : FMap result := λ A B f r,
  match r with
  | Ok a => Ok (f a)
  | Raise e => Raise e
  end.

(** [try: body  except cls as e: handler e] *)
Definition try_except {A} (body : result A) (cls : exn → bool)
    (handler : exn → result A) : result A :=
  match body with
  | Ok a => Ok a
  | Raise e => if cls e then handler e else Raise e
  end.

(** [xs[0]] *)
Definition index0 {A} (xs : list A) : result A :=
  match xs with
  | x :: _ => Ok x
  | [] => Raise (IndexError (py "list index out of range"))
  end.

(** ** Documents *)

(** A node of the tree built by BeautifulSoup: a tag with its attribute
    dictionary and its children, or a text node.  The attributes read by
    the code ([data-label], [data-value], [srcset], [alt]) hold a string;
    [class] is kept as the string of its space-joined tokens. *)
Inductive PageElement :=
| Tag (name : str) (attrs : gmap str str) (contents : list PageElement)
| NavigableString (text : str).

(** [e.descendants]: every node below [e], in document order. *)
Fixpoint descendants (e : PageElement) : list PageElement :=
  match e with
  | Tag _ _ cs =>
      (fix go (cs : list PageElement) : list PageElement :=
         match cs with
         | [] => []
         | c :: cs' => c :: descendants c ++ go cs'
         end) cs
  | NavigableString _ => []
  end.

(** [e.get(key, default)] *)
Definition get (e : PageElement) (key : str) (dflt : str) : str :=
  match e with
  | Tag _ attrs _ => default dflt (attrs !! key)
  | NavigableString _ => dflt
  end.

(** [bool(s)] for a string: a string is true when it is not empty. *)
Definition truthy (s : str) : bool :=
  match s with [] => false | _ :: _ => true end.

(** [e.has_attr(key)] *)
Definition has_attr (key : str) (e : PageElement) : bool :=
  match e with
  | Tag _ attrs _ => bool_decide (is_Some (attrs !! key))
  | NavigableString _ => false
  end.

(** [e.name == name], false on a text node. *)
Definition has_name (name : str) (e : PageElement) : bool :=
  match e with
  | Tag n _ _ => bool_decide (n = name)
  | NavigableString _ => false
  end.

(** [e.find_all(attrs={key: True})]: the tags below [e] that carry the
    attribute [key], whatever its value, in document order. *)
Definition find_all_attrs (key : str) (e : PageElement) : list PageElement :=
  List.filter (has_attr key) (descendants e).

(** [e.find_all(name)] and [e.find(name)]: the tags below [e] with that
    name in document order, and the first of them ([None] without one). *)
Definition find_all (name : str) (e : PageElement) : list PageElement :=
  List.filter (has_name name) (descendants e).

Definition find (name : str) (e : PageElement) : option PageElement :=
  head (find_all name e).

(** [e.get_text(strip=True)]: the text nodes below [e], each stripped, the
    empty ones dropped, joined without separator. *)
Definition get_text_strip (e : PageElement) : str :=
  concat (List.filter truthy
    (omap (λ d, match d with
                | NavigableString s => Some (strip s)
                | Tag _ _ _ => None
                end) (descendants e))).

(** [list(X)] for a set: its elements, each once.  The order in which
    Python yields them depends on the hashes of the strings, which change
    from one process to the next; [enumerates l X] says that [l] is one of
    the lists [list(X)] may be, and [list_of_set X] is one such list. *)
Definition list_of_set (X : gset str) : list str := elements X.

Definition enumerates (l : list str) (X : gset str) : Prop :=
  NoDup l ∧ ∀ x, x ∈ l ↔ x ∈ X.

(** ** What the code takes from its libraries and from the network *)

(** The Unicode tables of the interpreter and the markup parser are outside
    the repository: [lower] is [str.lower], [isdigit] is [str.isdigit] on
    one character, [normalize_NFD] is [unicodedata.normalize('NFD', _)],
    [category_Mn c] is [unicodedata.category(c) == 'Mn'], and
    [html_parser html] is the list of top-level nodes that
    [BeautifulSoup(html, 'html.parser')] builds.  The constructor raises
    on the markup that [html.parser] fails on: [parser_rejects] tells
    which markup that is, and [html_parser] matters on the rest. *)
Class PyEnv := {
  lower : str → str;
  isdigit : char → bool;
  normalize_NFD : str → str;
  category_Mn : char → bool;
  html_parser : str → list PageElement;
  parser_rejects : str → bool;
}.

(** The [BeautifulSoup] object is itself a tag, named [[document]]. *)
Definition BeautifulSoup {env : PyEnv} (html : str) : PageElement :=
  Tag (py "[document]") ∅ (html_parser html).

(** The call [BeautifulSoup(html, 'html.parser')] with its failure: the
    document, or the exception raised on markup that the parser
    rejects. *)
Definition BeautifulSoup_or_raise {env : PyEnv} (html : str) :
    result PageElement :=
  if parser_rejects html then Raise ParserRejectedMarkup
  else Ok (BeautifulSoup html).

(** A [requests.Response], and the network as seen by one call of
    [requests.get]: for a URL, a response or a raised exception. *)
Record Response := { status_code : Z; text : str }.

Abbreviation network := (str → result Response).

(** [response.raise_for_status()]: an [HTTPError] for a 4xx or 5xx status
    (the message is abridged to the status code). *)
Definition raise_for_status (r : Response) : result unit :=
  if ((400 <=? status_code r) && (status_code r <? 600))%Z
  then Raise (RequestException (py (pretty (status_code r)) ++ py " Error"))
  else Ok tt.

(** The dictionaries returned by the two [scrape] methods; the key
    [error] is present in the error case only. *)
Module LocationsResult.
Record t := mk {
  locations : list str;
  count : nat;
  status : str;
  error : option str;
}.
End LocationsResult.

Module ImagesResult.
Record t := mk {
  status : str;
  images : gmap str str;
  count : nat;
  error : option str;
}.
End ImagesResult.

(** ** scraper.py: class IRRESLocationScraper *)

Module IRRESLocationScraper.

Record t := mk { timeout : Z; locations : list str }.

Definition BASE_URL : str := py "https://irres.be/te-koop".

(** [__init__(self, timeout=10)] *)
Definition init (timeout : Z) : t := mk timeout [].

Section methods.
Context {env : PyEnv}.

Definition normalize_text (text : str) : str :=
  let nfd := normalize_NFD text in
  List.filter (λ c, negb (category_Mn c)) nfd.

(** The request either returns the body or raises; a
    [RequestException] is logged and raised again.  The timeout of the
    object goes into the request: [net] is the network as it answers
    requests made with that timeout. *)
Definition fetch_page (net : network) (self : t) : result str :=
  try_except
    (response ← net BASE_URL;
     _ ← raise_for_status response;
     Ok (text response))
    is_RequestException
    (λ e, Raise e).

Definition excluded_labels : gset str :=
  {[ py "appartement"; py "huis"; py "grond"; py "contact";
     py "droomwoning"; py "nieuwbouw"; py "verkocht"; py "verkopen";
     py "te-koop"; py "aanbod"; py "rekrutering" ]}.

(** The condition of the [if] in the loop of [parse_locations]. *)
Definition keep (label : str) : bool :=
  truthy label
  && negb (bool_decide (lower label ∈ excluded_labels))
  && negb (contains EURO label)
  && negb (existsb isdigit label).

(** The value of [locations_set] after the loop over [elements]. *)
Definition locations_set (elements : list PageElement) : gset str :=
  foldl (λ locations_set element,
           let label := strip (get element (py "data-label") []) in
           if keep label then locations_set ∪ {[ label ]}
           else locations_set)
        ∅ elements.

Definition parse_locations (html : str) : list str :=
  let soup := BeautifulSoup html in
  let elements := find_all_attrs (py "data-label") soup in
  sorted (list_of_set (locations_set elements)).

(** [parse_locations] with the failure of its first statement: the
    constructor raises on markup that the parser rejects, outside any
    [try], and the exception leaves the method; on the other markup the
    method returns the list above. *)
Definition parse_locations_or_raise (html : str) : result (list str) :=
  soup ← BeautifulSoup_or_raise html;
  let elements := find_all_attrs (py "data-label") soup in
  Ok (sorted (list_of_set (locations_set elements))).

(** [scrape] returns the object after the call and the returned
    dictionary.  [except Exception] lets through what does not derive
    from [Exception]. *)
Definition scrape (net : network) (self : t) :
    t * result LocationsResult.t :=
  match fetch_page net self with
  | Ok html =>
      let locations := parse_locations html in
      let self := mk (timeout self) locations in
      (self,
       Ok (LocationsResult.mk locations (length locations)
             (py "success") None))
  | Raise e =>
      if is_Exception e
      then (self,
            Ok (LocationsResult.mk [] 0 (py "error")
                  (Some (str_of_exn e))))
      else (self, Raise e)
  end.

Definition get_locations (self : t) : list str := locations self.
End methods.
End IRRESLocationScraper.

(** [get_irres_locations()]: a new scraper, one [scrape]. *)
Definition get_irres_locations {env : PyEnv} (net : network) :
    result LocationsResult.t :=
  let scraper := IRRESLocationScraper.init 10 in
  (IRRESLocationScraper.scrape net scraper).2.

(** ** scraper.py: class IRRESOfficeImagesScraper *)

Module IRRESOfficeImagesScraper.

Record t := mk { timeout : Z }.

Definition BASE_URL : str := py "https://irres.be/contact".

Definition init (timeout : Z) : t := mk timeout.

Section methods.
Context {env : PyEnv}.

Definition fetch_page (net : network) (self : t) : result str :=
  try_except
    (response ← net BASE_URL;
     _ ← raise_for_status response;
     Ok (text response))
    is_RequestException
    (λ e, Raise e).

(** One turn of the loop over [picture_elements]: the dictionary
    [images] after the turn, or the exception raised in it. *)
Definition parse_picture (images : gmap str str)
    (picture : PageElement) : result (gmap str str) :=
  match find (py "img") picture with
  | None => Ok images
  | Some img =>
      let srcset := get img (py "srcset") [] in
      let alt := lower (get img (py "alt") []) in
      if truthy srcset then
        first ← index0 (split srcset);
        let url := lstrip_char 0x2F first in
        if contains (py "7723384") url || contains (py "kerstgevel") url
           || contains (py "latem") alt
        then Ok (<[py "IrresLatemImage" := py "https://irres.be/" ++ url]>
                   images)
        else if contains (py "7723383") url
                || contains (py "destelbergen") url
        then Ok (<[py "IrresDestelbergenImage" :=
                     py "https://irres.be/" ++ url]> images)
        else Ok images
      else Ok images
  end.

Fixpoint parse_pictures (images : gmap str str)
    (picture_elements : list PageElement) : result (gmap str str) :=
  match picture_elements with
  | [] => Ok images
  | picture :: rest =>
      images ← parse_picture images picture;
      parse_pictures images rest
  end.

Definition parse_office_images (html : str) : result (gmap str str) :=
  let soup := BeautifulSoup html in
  let picture_elements := find_all (py "picture") soup in
  parse_pictures ∅ picture_elements.

(** [parse_office_images] with the failure of its first statement, as
    for [parse_locations] above. *)
Definition parse_office_images_or_raise (html : str) :
    result (gmap str str) :=
  soup ← BeautifulSoup_or_raise html;
  let picture_elements := find_all (py "picture") soup in
  parse_pictures ∅ picture_elements.

Definition scrape (net : network) (self : t) : result ImagesResult.t :=
  try_except
    (html ← fetch_page net self;
     images ← parse_office_images html;
     Ok (ImagesResult.mk (py "success") images (size images) None))
    is_Exception
    (λ e, Ok (ImagesResult.mk (py "error") ∅ 0 (Some (str_of_exn e)))).
End methods.
End IRRESOfficeImagesScraper.

Definition get_irres_office_images {env : PyEnv} (net : network) :
    result ImagesResult.t :=
  let scraper := IRRESOfficeImagesScraper.init 10 in
  IRRESOfficeImagesScraper.scrape net scraper.

(** ** HTTP responses *)

Inductive json :=
| JString (s : str)
| JNumber (n : nat)
| JArray (items : list json)
| JObject (fields : list (str * json)).

Inductive body :=
| Json (j : json)
| Text (s : str).

Record HttpResponse := {
  http_status : Z;
  mimetype : str;
  headers : list (str * str);
  content : body;
}.

(** [jsonify(j), code] *)
Definition jsonify (j : json) (code : Z) : HttpResponse :=
  {| http_status := code; mimetype := py "application/json";
     headers := []; content := Json j |}.

(** [sep.join(l)] *)
Fixpoint join (sep : str) (l : list str) : str :=
  match l with
  | [] => []
  | [s] => s
  | s :: l' => s ++ sep ++ join sep l'
  end.

(** ** api.py: the Flask application *)

Module Api.
Section routes.
Context {env : PyEnv}.

Definition format_csv_response (locations : list str) : HttpResponse :=
  let csv_content := py "location" ++ [0x0A] in
  let csv_content := csv_content ++ join [0x0A] locations in
  {| http_status := 200; mimetype := py "text/csv";
     headers := [(py "Content-Disposition",
                  py "attachment;filename=irres_locations.csv")];
     content := Text csv_content |}.

(** [GET /api/locations].  [args] are the query parameters of the
    request and [now] is [datetime.now().isoformat()]. *)
Definition get_locations (net : network) (args : gmap str str)
    (now : str) : result HttpResponse :=
  try_except
    (result ← get_irres_locations net;
     let output_format :=
       lower (default (py "json") (args !! py "format")) in
     if bool_decide (output_format = py "csv")
     then Ok (format_csv_response (LocationsResult.locations result))
     else
       let response :=
         JObject
           [(py "status", JString (py "success"));
            (py "timestamp", JString now);
            (py "data",
             JObject
               [(py "locations",
                 JArray (JString <$> LocationsResult.locations result));
                (py "count",
                 JNumber (length (LocationsResult.locations result)))])]
       in
       Ok (jsonify response 200))
    is_Exception
    (λ e, Ok (jsonify
                (JObject [(py "status", JString (py "error"));
                          (py "timestamp", JString now);
                          (py "message", JString (str_of_exn e))])
                500)).

(** [GET /api/office-images] *)
Definition get_office_images (net : network) (now : str) :
    result HttpResponse :=
  try_except
    (result ← get_irres_office_images net;
     let response :=
       JObject
         [(py "status", JString (ImagesResult.status result));
          (py "timestamp", JString now);
          (py "data",
           JObject (prod_map id JString <$>
                      map_to_list (ImagesResult.images result)))]
     in
     if bool_decide (ImagesResult.status result = py "success")
     then Ok (jsonify response 200)
     else Ok (jsonify response 500))
    is_Exception
    (λ e, Ok (jsonify
                (JObject [(py "status", JString (py "error"));
                          (py "timestamp", JString now);
                          (py "message", JString (str_of_exn e))])
                500)).
End routes.
End Api.

(** ** app.py: the FastAPI application *)

Module App.

(** The dictionaries built by [extract_locations]. *)
Record Location := { label : str; value : str; display_text : str }.

Module IrresLocationScraper.
Definition base_url : str := py "https://irres.be/te-koop".

Section methods.
Context {env : PyEnv}.

(** A [RequestException] is printed and [None] is returned. *)
Definition fetch_page (net : network) : result (option str) :=
  try_except
    (response ← net base_url;
     _ ← raise_for_status response;
     Ok (Some (text response)))
    is_RequestException
    (λ e, Ok None).

(** [class_=lambda x: x and 'search-values' in x] on a tag named
    [ul]: the function holds of one of the class tokens or of their
    space-joined string, that is of the latter, the searched word
    having no space. *)
Definition is_location_ul (e : PageElement) : bool :=
  has_name (py "ul") e &&
  match e with
  | Tag _ attrs _ =>
      match attrs !! py "class" with
      | Some x => truthy x && contains (py "search-values") x
      | None => false
      end
  | NavigableString _ => false
  end.

Definition extract_locations (html_content : str) : list Location :=
  let soup := BeautifulSoup html_content in
  match head (List.filter is_location_ul (descendants soup)) with
  | None => []
  | Some location_ul =>
      let location_items := find_all (py "li") location_ul in
      List.filter
        (λ location_data,
           truthy (label location_data)
           && truthy (value location_data))
        (map (λ item,
                {| label := strip (get item (py "data-label") []);
                   value := strip (get item (py "data-value") []);
                   display_text := get_text_strip item |})
             location_items)
  end.

Definition get_locations (net : network) : result (list Location) :=
  html_content ← fetch_page net;
  match html_content with
  | None => Ok []
  | Some html_content =>
      if truthy html_content
      then Ok (extract_locations html_content)
      else Ok []
  end.
End methods.
End IrresLocationScraper.

Section routes.
Context {env : PyEnv}.

Definition not_found : exn :=
  HTTPException 404 (py "No locations found or error fetching data").

(** [GET /locations]: the locations, or the raised exception. *)
Definition get_locations (net : network) : result (list Location) :=
  try_except
    (locations ← IrresLocationScraper.get_locations net;
     match locations with
     | [] => Raise not_found
     | _ => Ok locations
     end)
    is_Exception
    (λ e, Raise (HTTPException 500 (str_of_exn e))).

(** [GET /locations/labels]: the labels, or the raised exception. *)
Definition get_location_labels (net : network) : result (list str) :=
  try_except
    (locations ← IrresLocationScraper.get_locations net;
     match locations with
     | [] => Raise not_found
     | _ => Ok (label <$> locations)
     end)
    is_Exception
    (λ e, Raise (HTTPException 500 (str_of_exn e))).

(** [GET /locations/count]: the number in the dictionary returned. *)
Definition get_location_count (net : network) : result nat :=
  try_except
    (locations ← IrresLocationScraper.get_locations net;
     Ok (length locations))
    is_Exception
    (λ e, Raise (HTTPException 500 (str_of_exn e))).
End routes.

(** The status code FastAPI answers with: 200 for a returned value, the
    code of a raised [HTTPException], 500 for another exception. *)
Definition response_status {A} (r : result A) : Z :=
  match r with
  | Ok _ => 200
  | Raise (HTTPException code _) => code
  | Raise _ => 500
  end.
End App.

(** ** Notions used to state the properties *)



(** The labels that step 4 of section 4.2 of the specification discards:
    the empty label, a label whose lower-case form is in the exclusion set,
    a label with the euro sign (U+20AC), a label with a digit. *)
Definition discarded {env : PyEnv} (label : str) : Prop :=
  label = []
  ∨ lower label ∈ IRRESLocationScraper.excluded_labels
  ∨ 0x20AC ∈ label
  ∨ ∃ c, c ∈ label ∧ isdigit c = true.

(** The success envelope of [GET /api/locations] in the JSON format, for
    a list of locations. *)
Definition locations_response (now : str) (locations : list str) :
    HttpResponse :=
  jsonify
    (JObject
       [(py "status", JString (py "success"));
        (py "timestamp", JString now);
        (py "data",
         JObject [(py "locations", JArray (JString <$> locations));
                  (py "count", JNumber (length locations))])])
    200.

(** The decimal digit characters, Unicode category Nd ([str.isdecimal]),
    as ranges of code points (Unicode 14.0). *)
Definition Nd_ranges : list (N * N) :=
  [(48, 57); (1632, 1641); (1776, 1785); (1984, 1993); (2406, 2415);
   (2534, 2543); (2662, 2671); (2790, 2799); (2918, 2927); (3046, 3055);
   (3174, 3183); (3302, 3311); (3430, 3439); (3558, 3567); (3664, 3673);
   (3792, 3801); (3872, 3881); (4160, 4169); (4240, 4249); (6112, 6121);
   (6160, 6169); (6470, 6479); (6608, 6617); (6784, 6793); (6800, 6809);
   (6992, 7001); (7088, 7097); (7232, 7241); (7248, 7257); (42528, 42537);
   (43216, 43225); (43264, 43273); (43472, 43481); (43504, 43513);
   (43600, 43609); (44016, 44025); (65296, 65305); (66720, 66729);
   (68912, 68921); (69734, 69743); (69872, 69881); (69942, 69951);
   (70096, 70105); (70384, 70393); (70736, 70745); (70864, 70873);
   (71248, 71257); (71360, 71369); (71472, 71481); (71904, 71913);
   (72016, 72025); (72784, 72793); (73040, 73049); (73120, 73129);
   (92768, 92777); (92864, 92873); (93008, 93017); (120782, 120831);
   (123200, 123209); (123632, 123641); (125264, 125273); (130032, 130041)].

Definition decimal_digit (c : char) : bool :=
  existsb (λ r, (r.1 <=? c) && (c <=? r.2)) Nd_ranges.

(** The labels discarded according to the specification read to the
    letter: as [discarded], the last test being that of a decimal digit
    character. *)
Definition discarded_as_specified {env : PyEnv} (label : str) : Prop :=
  label = []
  ∨ lower label ∈ IRRESLocationScraper.excluded_labels
  ∨ 0x20AC ∈ label
  ∨ ∃ c, c ∈ label ∧ decimal_digit c = true.

(** [s.split(sep)] for a one-character separator, by which a reader of
    the CSV body takes its lines apart. *)
Fixpoint split_on (sep : char) (s : str) : list str :=
  match s with
  | [] => [[]]
  | c :: s' =>
      if c =? sep then [] :: split_on sep s'
      else match split_on sep s' with
           | line :: lines => (c :: line) :: lines
           | [] => [[c]]
           end
  end.

(** A string that neither starts nor ends with a whitespace character. *)
Definition trimmed (s : str) : Prop :=
  (∀ c, head s = Some c → isspace c = false)
  ∧ (∀ c, last s = Some c → isspace c = false).

(** The trimmed labels of the elements that carry [data-label]. *)
Definition data_labels {env : PyEnv} (html : str) : list str :=
  (λ e, strip (get e (py "data-label") []))
    <$> find_all_attrs (py "data-label") (BeautifulSoup html).

(** The two office keys. *)
Definition IrresLatemImage : str := py "IrresLatemImage".
Definition IrresDestelbergenImage : str := py "IrresDestelbergenImage".

(** The office key a picture element matches and the URL derived from it,
    following section 4.3 of the specification: the first token of the
    source set of its image without leading slashes, classified by
    substring, prefixed with the origin of the site. *)
Definition office_entry {env : PyEnv} (picture : PageElement) :
    option (str * str) :=
  img ← find (py "img") picture;
  first ← head (split (get img (py "srcset") []));
  let url := lstrip_char 0x2F first in
  let alt := lower (get img (py "alt") []) in
  if contains (py "7723384") url || contains (py "kerstgevel") url
     || contains (py "latem") alt
  then Some (IrresLatemImage, py "https://irres.be/" ++ url)
  else if contains (py "7723383") url || contains (py "destelbergen") url
  then Some (IrresDestelbergenImage, py "https://irres.be/" ++ url)
  else None.

(** A picture whose image has a source set that is not empty and holds
    no token: blanks only. *)
Definition blank_srcset (picture : PageElement) : bool :=
  match find (py "img") picture with
  | Some img =>
      let srcset := get img (py "srcset") [] in
      truthy srcset && forallb isspace srcset
  | None => false
  end.

(** The URL of the last of [pictures] that matches [key]. *)
Definition last_match {env : PyEnv} (key : str) (pictures : list PageElement) :
    option str :=
  snd <$> last (List.filter (λ kv, bool_decide (kv.1 = key))
                            (omap office_entry pictures)).

(** ** Sample environment and pages *)

(** The Unicode tables restricted to what the sample pages use: ASCII
    letters and digits, and the letter a with acute accent. *)
Definition ascii_lower (s : str) : str :=
  map (λ c, if (0x41 <=? c) && (c <=? 0x5A) then c + 32 else c) s.

Definition ascii_isdigit (c : char) : bool := (0x30 <=? c) && (c <=? 0x39).

(** A parser that builds the nodes [page] from every non-empty markup. *)
Definition page_parser (page : list PageElement) (html : str) :
    list PageElement :=
  match html with [] => [] | _ => page end.

Definition sample_NFD (s : str) : str :=
  flat_map (λ c, if c =? 0xE1 then [0x61; 0x301] else [c]) s.

Definition sample_Mn (c : char) : bool := (0x300 <=? c) && (c <=? 0x36F).

(** Of the markups of the samples [html.parser] rejects one, [<![x]>]: an
    unknown keyword in a marked section. *)
Definition sample_rejects (html : str) : bool :=
  bool_decide (html = py "<![x]>").

Definition sample_env (page : list PageElement) : PyEnv :=
  {| lower := ascii_lower; isdigit := ascii_isdigit;
     normalize_NFD := sample_NFD; category_Mn := sample_Mn;
     html_parser := page_parser page;
     parser_rejects := sample_rejects |}.

Definition li (data_label : str) : PageElement :=
  Tag (py "li") {[ py "data-label" := data_label ]} [].

(** A filter list: labels with surrounding blanks, in two cases, with and
    without accent (U+00E1), excluded words, a price, a count, an empty
    label and a repeated one. *)
Definition filter_page : list PageElement :=
  [Tag (py "ul") {[ py "class" := py "search-values" ]}
     [li (py " Gent "); li (py "gent");
      li ([0x4C; 0xE1] ++ py "tem"); li (py "Latem");
      li (py "huis"); li (py "Huis");
      li (EURO ++ py " vanaf"); li (py "2 slaapkamers");
      li []; li (py "Gent")]].

Definition picture (srcset alt : str) : PageElement :=
  Tag (py "picture") ∅
    [Tag (py "img") {[ py "srcset" := srcset; py "alt" := alt ]} []].

(** Two pictures of the Destelbergen office. *)
Definition contact_page : list PageElement :=
  [picture (py "/img/7723383-a.jpg 800w") (py "kantoor");
   picture (py "/img/destelbergen-b.jpg 800w, /img/c.jpg 1600w") []].

(** A picture whose address names the Destelbergen office and whose
    alternate text names the Latem office, after a picture of the
    Destelbergen office. *)
Definition mixed_page : list PageElement :=
  [picture (py "/img/7723383-a.jpg 800w") (py "kantoor");
   picture (py "//img/destelbergen-7723383.jpg 800w") (py "Kantoor Latem")].

(** A picture of the Latem office whose source set is one blank. *)
Definition blank_srcset_page : list PageElement :=
  [picture (py " ") (py "Latem")].

(** The two pictures of the Destelbergen office, followed by the picture
    with the blank source set. *)
Definition partly_blank_page : list PageElement :=
  contact_page ++ blank_srcset_page.

(** A filter list as [app.py] reads it: the options carry a label and a
    value. *)
Definition option_li (data_label data_value text : str) : PageElement :=
  Tag (py "li")
    {[ py "data-label" := data_label; py "data-value" := data_value ]}
    [NavigableString text].

Definition search_page : list PageElement :=
  [Tag (py "ul") {[ py "class" := py "filter search-values" ]}
     [option_li (py "Gent") (py "gent") (py " Gent ");
      option_li (py "Latem") (py "latem") (py " Latem ")]].

(** The filter list again, its options in another order and some of them
    twice, outside a list. *)
Definition shuffled_filter_page : list PageElement :=
  [Tag (py "div") ∅
     [li (py "Latem"); li (py "gent"); li (py "Gent");
      li (py "Huis"); li (py "2 slaapkamers")];
   Tag (py "span") {[ py "data-label" := py "  Latem" ]} [];
   li (py "huis"); li (EURO ++ py " vanaf"); li [];
   li ([0x4C; 0xE1] ++ py "tem"); li (py "gent ")].

(** A parser that knows the markups of [pages] and builds nothing from
    another one. *)
Fixpoint pages_parser (pages : list (str * list PageElement)) (html : str) :
    list PageElement :=
  match pages with
  | [] => []
  | (markup, page) :: pages' =>
      if bool_decide (markup = html) then page else pages_parser pages' html
  end.

Definition pages_env (pages : list (str * list PageElement)) : PyEnv :=
  {| lower := ascii_lower; isdigit := ascii_isdigit;
     normalize_NFD := sample_NFD; category_Mn := sample_Mn;
     html_parser := pages_parser pages;
     parser_rejects := sample_rejects |}.

(** The Unicode tables on Latin-1: [str.lower] maps the capital letters
    (U+0041 to U+005A, U+00C0 to U+00DE without the multiplication sign
    U+00D7) 32 places up, and [str.isdigit] holds of the ten digits and
    of the superscripts U+00B2, U+00B3 and U+00B9. *)
Definition latin1_lower (s : str) : str :=
  map (λ c, if ((0x41 <=? c) && (c <=? 0x5A))
               || ((0xC0 <=? c) && (c <=? 0xDE) && negb (c =? 0xD7))
            then c + 32 else c) s.

Definition latin1_isdigit (c : char) : bool :=
  ((0x30 <=? c) && (c <=? 0x39)) || (c =? 0xB2) || (c =? 0xB3) || (c =? 0xB9).

Definition latin1_env (page : list PageElement) : PyEnv :=
  {| lower := latin1_lower; isdigit := latin1_isdigit;
     normalize_NFD := sample_NFD; category_Mn := sample_Mn;
     html_parser := page_parser page;
     parser_rejects := sample_rejects |}.

(** A filter list with a label that ends in the superscript two. *)
Definition superscript_page : list PageElement :=
  [Tag (py "ul") {[ py "class" := py "search-values" ]}
     [li (py "Gent" ++ [0xB2]); li (py "Gent")]].

(** The network: a page served, and a connection that fails. *)
Definition serves (html : str) : network :=
  λ _, Ok {| status_code := 200; text := html |}.

Definition unreachable : network :=
  λ _, Raise (RequestException (py "Connection refused")).

(** * Properties *)

(** ** The order on strings *)

Lemma str_leb_refl a : str_leb a a = true.
Proof.
  induction a as [|x a IH]; simpl; [done|].
  by rewrite N.ltb_irrefl, N.eqb_refl.
Qed.

Lemma str_leb_total a b : str_leb a b = true ∨ str_leb b a = true.
Proof.
  revert b. induction a as [|x a IH]; intros [|y b]; simpl; auto.
  destruct (N.ltb_spec x y) as [Hxy|Hxy]; [by left|].
  destruct (N.ltb_spec y x) as [Hyx|Hyx]; [by right|].
  assert (x = y) as -> by lia.
  rewrite N.eqb_refl. apply IH.
Qed.

Lemma str_leb_trans a b c :
  str_leb a b = true → str_leb b c = true → str_leb a c = true.
Proof.
  revert b c. induction a as [|x a IH]; intros [|y b] [|z c]; simpl; try done.
  destruct (N.ltb_spec x y) as [Hxy|Hxy].
  - intros _. destruct (N.ltb_spec y z) as [Hyz|Hyz].
    + intros _. by destruct (N.ltb_spec x z); [|lia].
    + destruct (N.eqb_spec y z) as [->|]; [|done].
      intros _. by destruct (N.ltb_spec x z); [|lia].
  - destruct (N.eqb_spec x y) as [->|]; [|done].
    intros Hab. destruct (N.ltb_spec y z) as [Hyz|Hyz]; [done|].
    destruct (N.eqb_spec y z) as [->|]; [|done].
    by apply IH.
Qed.

Lemma str_leb_antisym a b :
  str_leb a b = true → str_leb b a = true → a = b.
Proof.
  revert b. induction a as [|x a IH]; intros [|y b]; simpl; try done.
  destruct (N.ltb_spec x y) as [Hxy|Hxy].
  - intros _. destruct (N.ltb_spec y x); [lia|].
    destruct (N.eqb_spec y x); [lia|done].
  - destruct (N.eqb_spec x y) as [->|]; [|done].
    rewrite N.ltb_irrefl, N.eqb_refl. intros ??. f_equal. by apply IH.
Qed.

Global Instance str_le_total : Total str_le.
Proof. intros a b. apply str_leb_total. Qed.

Global Instance str_le_trans : Transitive str_le.
Proof. intros a b c. apply str_leb_trans. Qed.

Global Instance str_le_antisym : AntiSymm (=) str_le.
Proof. intros a b. apply str_leb_antisym. Qed.

Lemma sorted_Permutation l : sorted l ≡ₚ l.
Proof. apply merge_sort_Permutation. Qed.

Lemma sorted_Sorted l : Sorted str_le (sorted l).
Proof. apply (Sorted_merge_sort str_le). Qed.

(** The sorted list does not depend on the order of the list sorted. *)
Lemma sorted_order_irrelevant l1 l2 : l1 ≡ₚ l2 → sorted l1 = sorted l2.
Proof.
  intros Hperm. apply (Sorted_unique str_le); auto using sorted_Sorted.
  by rewrite !sorted_Permutation.
Qed.

Lemma enumerates_list_of_set X : enumerates (list_of_set X) X.
Proof.
  split; [apply NoDup_elements|]. intros x. apply elem_of_elements.
Qed.

Lemma enumerates_Permutation l X : enumerates l X → l ≡ₚ list_of_set X.
Proof.
  intros [Hnodup Hl]. apply NoDup_Permutation; [done|apply NoDup_elements|].
  intros x. unfold list_of_set. by rewrite Hl, elem_of_elements.
Qed.

(** ** Substring and character tests *)

Lemma contains_char c s : contains [c] s = true ↔ c ∈ s.
Proof.
  induction s as [|b s IH]; simpl.
  - split; [done|]. by intros ?%elem_of_nil.
  - rewrite orb_true_iff, IH, andb_true_r, N.eqb_eq, elem_of_cons.
    done.
Qed.

Lemma existsb_elem_of {A} (f : A → bool) l :
  existsb f l = true ↔ ∃ x, x ∈ l ∧ f x = true.
Proof.
  rewrite existsb_exists. by setoid_rewrite list_elem_of_In.
Qed.

Lemma truthy_nonempty s : truthy s = true ↔ s ≠ [].
Proof. by destruct s. Qed.

(** ** The location extractor *)

Section locations.
Context {env : PyEnv}.
Import IRRESLocationScraper.

Lemma keep_discarded label : keep label = true ↔ ¬ discarded label.
Proof.
  unfold keep, discarded.
  rewrite !andb_true_iff, !negb_true_iff, truthy_nonempty.
  rewrite bool_decide_eq_false, <-!not_true_iff_false.
  rewrite (contains_char 0x20AC label), existsb_elem_of. tauto.
Qed.

Lemma elem_of_locations_fold (acc : gset str) elements x :
  x ∈ foldl (λ locations_set element,
               let label := strip (get element (py "data-label") []) in
               if keep label then locations_set ∪ {[ label ]}
               else locations_set) acc elements
  ↔ x ∈ acc ∨ ∃ e, e ∈ elements ∧ x = strip (get e (py "data-label") [])
                   ∧ keep x = true.
Proof.
  revert acc. induction elements as [|e els IH]; intros acc; simpl.
  - split; [auto|]. intros [?|(e & ?%elem_of_nil & _)]; done.
  - rewrite IH. setoid_rewrite elem_of_cons.
    destruct (keep (strip (get e (py "data-label") []))) eqn:Hkeep.
    + rewrite elem_of_union, elem_of_singleton. split.
      * intros [[?| ->]|(e' & ? & ? & ?)]; eauto 7.
      * intros [?|(e' & [->|?] & -> & ?)]; eauto 7.
    + split.
      * intros [?|(e' & ? & ? & ?)]; eauto 7.
      * intros [?|(e' & [->|?] & -> & ?)]; [auto|congruence|eauto 7].
Qed.

Lemma elem_of_locations_set elements x :
  x ∈ locations_set elements
  ↔ ∃ e, e ∈ elements ∧ x = strip (get e (py "data-label") []) ∧ keep x = true.
Proof.
  unfold locations_set. rewrite elem_of_locations_fold.
  split; [|auto]. by intros [?%not_elem_of_empty|?].
Qed.

Lemma elem_of_parse_locations html x :
  x ∈ parse_locations html
  ↔ x ∈ locations_set (find_all_attrs (py "data-label") (BeautifulSoup html)).
Proof.
  unfold parse_locations, list_of_set. cbv zeta.
  by rewrite sorted_Permutation, elem_of_elements.
Qed.

(** The entries of the output: the trimmed labels that no test
    discards. *)
Lemma parse_locations_entries html x :
  x ∈ parse_locations html
  ↔ ∃ e, e ∈ find_all_attrs (py "data-label") (BeautifulSoup html)
         ∧ x = strip (get e (py "data-label") []) ∧ ¬ discarded x.
Proof.
  rewrite elem_of_parse_locations, elem_of_locations_set.
  by setoid_rewrite keep_discarded.
Qed.

(** C1.  For every markup, the list returned by [parse_locations] has no
    duplicate and is in ascending order of code points; and it is
    determined by the markup: in whichever order the set of labels is
    listed before sorting, the same list is returned. *)
Theorem parse_locations_sorted_nodup html :
  NoDup (parse_locations html)
  ∧ Sorted str_le (parse_locations html)
  ∧ ∀ l,
      enumerates l
        (locations_set
           (find_all_attrs (py "data-label") (BeautifulSoup html))) →
      sorted l = parse_locations html.
Proof.
  split_and!.
  - unfold parse_locations. cbv zeta.
    rewrite sorted_Permutation. apply NoDup_elements.
  - apply sorted_Sorted.
  - intros l Hl. apply sorted_order_irrelevant.
    by apply enumerates_Permutation.
Qed.

(** C2.  For every element carrying the attribute [data-label], its
    trimmed label is in the output of [parse_locations] exactly when
    none of the four tests discards it: it is absent when it is empty,
    when its lower-case form is in the exclusion set, when it contains
    the euro sign or when it contains a character that [str.isdigit]
    holds of, and present otherwise. *)
Theorem parse_locations_filter html element :
  element ∈ find_all_attrs (py "data-label") (BeautifulSoup html) →
  let label := strip (get element (py "data-label") []) in
  (discarded label → label ∉ parse_locations html)
  ∧ (¬ discarded label → label ∈ parse_locations html).
Proof.
  intros Helement label. rewrite parse_locations_entries. split.
  - by intros Hdiscarded (e & _ & _ & Hkept).
  - intros Hkept. by exists element.
Qed.

(** On a document without nodes, as for the empty markup, and on a
    document in which no element carries the attribute [data-label],
    the list of [parse_locations] is empty. *)
Lemma parse_locations_without_labels :
  (html_parser [] = [] → parse_locations [] = [])
  ∧ ∀ html,
      (∀ e, e ∈ descendants (BeautifulSoup html) →
            has_attr (py "data-label") e = false) →
      parse_locations html = [].
Proof.
  assert (∀ html,
    find_all_attrs (py "data-label") (BeautifulSoup html) = [] →
    parse_locations html = []) as Hnone.
  { intros html Hnil. unfold parse_locations. cbv zeta.
    rewrite Hnil. unfold locations_set, list_of_set. simpl.
    by rewrite elements_empty. }
  split.
  - intros Hempty. apply Hnone.
    unfold find_all_attrs, BeautifulSoup. by rewrite Hempty.
  - intros html Hno. apply Hnone. unfold find_all_attrs.
    induction (descendants (BeautifulSoup html)) as [|e l IH]; [done|].
    simpl. rewrite (Hno e) by apply list_elem_of_here.
    apply IH. intros e' He'. apply Hno. by apply list_elem_of_further.
Qed.

(** C10.  Every string of the output of [parse_locations] is, character
    for character, the trimmed value of the attribute [data-label] of
    some element: nothing is normalised.  Hence two labels that pass the
    filter and differ, be it only in an accent or in the case of a
    letter, are two entries of the output. *)
Theorem parse_locations_verbatim html :
  (∀ s, s ∈ parse_locations html →
        ∃ element,
          element ∈ find_all_attrs (py "data-label") (BeautifulSoup html)
          ∧ s = strip (get element (py "data-label") []))
  ∧ ∀ e1 e2,
      e1 ∈ find_all_attrs (py "data-label") (BeautifulSoup html) →
      e2 ∈ find_all_attrs (py "data-label") (BeautifulSoup html) →
      let l1 := strip (get e1 (py "data-label") []) in
      let l2 := strip (get e2 (py "data-label") []) in
      ¬ discarded l1 → ¬ discarded l2 → l1 ≠ l2 →
      ∃ i j, i ≠ j
             ∧ parse_locations html !! i = Some l1
             ∧ parse_locations html !! j = Some l2.
Proof.
  split.
  - intros s (e & He & Hs & _)%parse_locations_entries. eauto.
  - intros e1 e2 He1 He2 l1 l2 Hl1 Hl2 Hne.
    assert (l1 ∈ parse_locations html) as [i Hi]%list_elem_of_lookup
      by (apply parse_locations_entries; eauto).
    assert (l2 ∈ parse_locations html) as [j Hj]%list_elem_of_lookup
      by (apply parse_locations_entries; eauto).
    exists i, j. split_and!; [|done..].
    intros ->. congruence.
Qed.
End locations.

Lemma parse_locations_sorted_nodup_witness :
  let env := sample_env filter_page in
  let html := py "<ul>" in
  NoDup (IRRESLocationScraper.parse_locations html)
  ∧ Sorted str_le (IRRESLocationScraper.parse_locations html)
  ∧ sorted [py "gent"; py "Latem"; py "Gent"; [0x4C; 0xE1] ++ py "tem"]
    = IRRESLocationScraper.parse_locations html.
Proof.
  intros env html.
  destruct (parse_locations_sorted_nodup (env:=env) html)
    as (Hnodup & Hsorted & Hsame).
  split_and!; [exact Hnodup|exact Hsorted|].
  apply Hsame. split.
  - apply (bool_decide_unpack _). by vm_compute.
  - intros x.
    replace (IRRESLocationScraper.locations_set _)
      with (list_to_set (C:=gset str)
              [py "gent"; py "Latem"; py "Gent"; [0x4C; 0xE1] ++ py "tem"])
      by (by vm_compute).
    by rewrite elem_of_list_to_set.
Defined.

Lemma parse_locations_filter_witness :
  let env := sample_env filter_page in
  let html := py "<ul>" in
  py "Gent" ∈ IRRESLocationScraper.parse_locations html
  ∧ py "Huis" ∉ IRRESLocationScraper.parse_locations html.
Proof.
  intros env html. split.
  - apply (parse_locations_filter (env:=env) html (li (py " Gent "))).
    + apply list_elem_of_In. vm_compute. tauto.
    + apply keep_discarded. by vm_compute.
  - apply (parse_locations_filter (env:=env) html (li (py "Huis"))).
    + apply list_elem_of_In. vm_compute. tauto.
    + right; left. apply (bool_decide_unpack _). by vm_compute.
Defined.

Lemma parse_locations_without_labels_witness :
  IRRESLocationScraper.parse_locations (env:=sample_env filter_page) [] = []
  ∧ IRRESLocationScraper.parse_locations (env:=sample_env contact_page)
      (py "<picture>") = [].
Proof.
  split.
  - destruct (parse_locations_without_labels (env:=sample_env filter_page))
      as [Hempty _].
    apply Hempty. reflexivity.
  - destruct (parse_locations_without_labels (env:=sample_env contact_page))
      as [_ Hnone].
    apply Hnone. intros e He%list_elem_of_In. vm_compute in He.
    repeat (destruct He as [<-|He]; [by vm_compute|]). done.
Defined.

Lemma parse_locations_verbatim_witness :
  let env := sample_env filter_page in
  let html := py "<ul>" in
  (∃ element,
     element ∈ find_all_attrs (py "data-label") (BeautifulSoup html)
     ∧ py "gent" = strip (get element (py "data-label") []))
  ∧ ∃ i j, i ≠ j
      ∧ IRRESLocationScraper.parse_locations html !! i
        = Some ([0x4C; 0xE1] ++ py "tem")
      ∧ IRRESLocationScraper.parse_locations html !! j = Some (py "Latem").
Proof.
  intros env html.
  destruct (parse_locations_verbatim (env:=env) html) as [Hfrom Hboth].
  split.
  - apply Hfrom. apply list_elem_of_In. vm_compute. tauto.
  - apply (Hboth (li ([0x4C; 0xE1] ++ py "tem")) (li (py "Latem"))).
    + apply list_elem_of_In. vm_compute. tauto.
    + apply list_elem_of_In. vm_compute. tauto.
    + apply keep_discarded. by vm_compute.
    + apply keep_discarded. by vm_compute.
    + by vm_compute.
Defined.

(** The labels of the sample page are returned with their accents and
    their case, although [normalize_text] would remove the accent. *)
Example parse_locations_keeps_accents :
  let env := sample_env filter_page in
  IRRESLocationScraper.parse_locations (py "<ul>")
  = [py "Gent"; py "Latem"; [0x4C; 0xE1] ++ py "tem"; py "gent"]
  ∧ IRRESLocationScraper.normalize_text ([0x4C; 0xE1] ++ py "tem")
    = py "Latem".
Proof. by vm_compute. Qed.

(** ** The scraper object *)

Section scrape.
Context {env : PyEnv}.
Import IRRESLocationScraper.

(** What makes the fetch raise a network error: [requests.get] raising
    one, or a response with a 4xx or 5xx status. *)
Lemma fetch_page_request_exception net self msg :
  net BASE_URL = Raise (RequestException msg) →
  fetch_page net self = Raise (RequestException msg).
Proof. unfold fetch_page. by intros ->. Qed.

Lemma fetch_page_error_status net self response :
  net BASE_URL = Ok response →
  (400 ≤ status_code response < 600)%Z →
  ∃ msg, fetch_page net self = Raise (RequestException msg).
Proof.
  intros Hnet [Hlo Hhi]. unfold fetch_page, raise_for_status.
  rewrite Hnet. simpl.
  apply Z.leb_le in Hlo. apply Z.ltb_lt in Hhi. rewrite Hlo, Hhi. simpl.
  eauto.
Qed.

Lemma scrape_fetch_ok net self html :
  fetch_page net self = Ok html →
  scrape net self
  = (mk (timeout self) (parse_locations html),
     Ok (LocationsResult.mk (parse_locations html)
           (length (parse_locations html)) (py "success") None)).
Proof. unfold scrape. by intros ->. Qed.

Lemma scrape_fetch_raise net self e :
  fetch_page net self = Raise e →
  scrape net self
  = (self,
     if is_Exception e
     then Ok (LocationsResult.mk [] 0 (py "error") (Some (str_of_exn e)))
     else Raise e).
Proof. unfold scrape. intros ->. by destruct (is_Exception e). Qed.

(** C4.  When the fetch of the page raises a network error, [scrape]
    returns (it does not raise) the dictionary with status ["error"],
    no location, count 0 and the message of the error. *)
Theorem scrape_network_error net self e :
  fetch_page net self = Raise e →
  is_RequestException e = true →
  (scrape net self).2
  = Ok (LocationsResult.mk [] 0 (py "error") (Some (str_of_exn e))).
Proof.
  intros Hfetch He. rewrite (scrape_fetch_raise _ _ _ Hfetch).
  by destruct e.
Qed.



End scrape.

Lemma scrape_network_error_witness :
  let env := sample_env filter_page in
  (IRRESLocationScraper.scrape unreachable (IRRESLocationScraper.init 10)).2
  = Ok (LocationsResult.mk [] 0 (py "error")
          (Some (py "Connection refused"))).
Proof.
  intros env.
  apply (scrape_network_error (env:=env) unreachable
           (IRRESLocationScraper.init 10)
           (RequestException (py "Connection refused")));
    reflexivity.
Defined.


(** ** The office images *)

Lemma split_aux_nil cur s :
  split_aux cur s = [] ↔ cur = [] ∧ forallb isspace s = true.
Proof.
  revert cur. induction s as [|c s IH]; intros cur; simpl.
  - destruct cur; [done|]. split; [done|by intros [? _]].
  - destruct (isspace c); simpl.
    + destruct cur; [apply IH|]. split; [done|by intros [? _]].
    + rewrite IH. split; [by intros [? _]|by intros [_ ?]].
Qed.

Lemma split_nil s : split s = [] ↔ forallb isspace s = true.
Proof.
  unfold split. rewrite split_aux_nil. split; [by intros [_ ?]|done].
Qed.

Section office_images.
Context {env : PyEnv}.
Import IRRESOfficeImagesScraper.

(** One turn of the loop raises on a blank source set, and otherwise
    records the entry of the picture, if it has one. *)
Lemma parse_picture_blank images picture :
  blank_srcset picture = true →
  parse_picture images picture
  = Raise (IndexError (py "list index out of range")).
Proof.
  unfold blank_srcset, parse_picture.
  destruct (find (py "img") picture) as [img|]; [|done].
  cbv zeta. intros [-> Hblank%split_nil]%andb_true_iff.
  by rewrite Hblank.
Qed.

Lemma parse_picture_not_blank images picture :
  blank_srcset picture = false →
  parse_picture images picture
  = Ok match office_entry picture with
       | Some (key, url) => <[key := url]> images
       | None => images
       end.
Proof.
  unfold blank_srcset, parse_picture, office_entry.
  destruct (find (py "img") picture) as [img|]; simpl; [|done].
  destruct (get img (py "srcset") []) as [|c srcset] eqn:Hsrcset;
    simpl; [done|].
  intros Hblank.
  destruct (split (c :: srcset)) as [|first tokens] eqn:Hsplit.
  { apply split_nil in Hsplit. simpl in Hsplit. congruence. }
  simpl.
  repeat match goal with |- context [if ?b then _ else _] =>
    destruct b end; done.
Qed.

Lemma parse_pictures_not_blank images pictures :
  (∀ p, p ∈ pictures → blank_srcset p = false) →
  ∃ images', parse_pictures images pictures = Ok images'.
Proof.
  revert images.
  induction pictures as [|p ps IH]; intros images Hps; simpl; [eauto|].
  rewrite parse_picture_not_blank by (apply Hps, list_elem_of_here).
  simpl. apply IH. intros p' ?. by apply Hps, list_elem_of_further.
Qed.

Lemma last_match_cons key p ps :
  last_match key (p :: ps)
  = match last_match key ps with
    | Some url => Some url
    | None =>
        match office_entry p with
        | Some (k, url) => if bool_decide (k = key) then Some url else None
        | None => None
        end
    end.
Proof.
  unfold last_match. simpl.
  destruct (office_entry p) as [[k url]|]; simpl.
  - destruct (bool_decide (k = key)); simpl.
    + rewrite last_cons. by destruct (last _).
    + by destruct (last _).
  - by destruct (last _).
Qed.

Lemma parse_pictures_last_match images pictures images' key :
  parse_pictures images pictures = Ok images' →
  images' !! key
  = match last_match key pictures with
    | Some url => Some url
    | None => images !! key
    end.
Proof.
  revert images.
  induction pictures as [|p ps IH]; intros images; simpl.
  { by intros [= ->]. }
  destruct (blank_srcset p) eqn:Hblank.
  { by rewrite parse_picture_blank. }
  rewrite parse_picture_not_blank by done. simpl.
  intros ->%IH. rewrite last_match_cons.
  destruct (last_match key ps); [done|].
  destruct (office_entry p) as [[k url]|]; [|done].
  case_bool_decide as Hk.
  - subst k. apply lookup_insert_eq.
  - by apply lookup_insert_ne.
Qed.

Lemma parse_pictures_blank images pictures :
  (∃ p, p ∈ pictures ∧ blank_srcset p = true) →
  parse_pictures images pictures
  = Raise (IndexError (py "list index out of range")).
Proof.
  revert images.
  induction pictures as [|p ps IH]; intros images (q & Hq & Hblank).
  { by apply elem_of_nil in Hq. }
  simpl. destruct (blank_srcset p) eqn:Hp.
  { by rewrite parse_picture_blank. }
  rewrite parse_picture_not_blank by done. simpl. apply IH.
  apply elem_of_cons in Hq as [->|Hq]; [congruence|eauto].
Qed.

(** Without a blank source set the mapping is returned, and holds for
    each key the URL of the last picture that matches it. *)
Lemma parse_office_images_returns html :
  (∀ p, p ∈ find_all (py "picture") (BeautifulSoup html) →
        blank_srcset p = false) →
  ∃ images,
    parse_office_images html = Ok images
    ∧ ∀ key,
        images !! key
        = last_match key (find_all (py "picture") (BeautifulSoup html)).
Proof.
  intros Hpictures. unfold parse_office_images. cbv zeta.
  destruct (parse_pictures_not_blank ∅ _ Hpictures) as [images Hparse].
  exists images. split; [done|]. intros key.
  rewrite (parse_pictures_last_match _ _ _ key Hparse).
  by destruct (last_match _ _).
Qed.

(** C5, at a picture of the Latem office whose source set is one
    blank: [parse_office_images] raises [IndexError]. *)
Theorem parse_office_images_blank_srcset_raises :
  parse_office_images (env:=sample_env blank_srcset_page) (py "<picture>")
  = Raise (IndexError (py "list index out of range")).
Proof. by vm_compute. Qed.

(** A missing or empty source set, on the contrary, is passed over. *)
Lemma parse_picture_no_srcset images picture img :
  find (py "img") picture = Some img →
  get img (py "srcset") [] = [] →
  parse_picture images picture = Ok images.
Proof. unfold parse_picture. by intros -> ->. Qed.

(** C6.  When [parse_office_images] returns a mapping, its entry for
    each key is the URL derived from the last picture element, in
    document order, that matches the key, and there is no entry for a
    key that no picture matches: of two or more pictures that match the
    same office, the last one wins, and a key has one entry at most. *)
Theorem parse_office_images_last_match html images :
  parse_office_images html = Ok images →
  ∀ key,
    images !! key
    = last_match key (find_all (py "picture") (BeautifulSoup html)).
Proof.
  unfold parse_office_images. cbv zeta. intros Hparse key.
  rewrite (parse_pictures_last_match _ _ _ key Hparse).
  by destruct (last_match _ _).
Qed.
End office_images.

Lemma parse_office_images_last_match_witness :
  let env := sample_env contact_page in
  ∃ images,
    IRRESOfficeImagesScraper.parse_office_images (py "<picture>") = Ok images
    ∧ images !! IrresDestelbergenImage
      = Some (py "https://irres.be/img/destelbergen-b.jpg")
    ∧ images !! IrresLatemImage = None.
Proof.
  intros env.
  destruct (IRRESOfficeImagesScraper.parse_office_images (py "<picture>"))
    as [images|e] eqn:Hparse; [|by vm_compute in Hparse].
  exists images. split; [done|].
  pose proof (parse_office_images_last_match (env:=env) _ _ Hparse) as Hlast.
  split; rewrite Hlast; by vm_compute.
Defined.

(** ** The routes *)

Section routes.
Context {env : PyEnv}.

(** With a page fetched, the route answers 200 with the locations. *)
Lemma api_get_locations_success net args now html :
  IRRESLocationScraper.fetch_page net (IRRESLocationScraper.init 10)
  = Ok html →
  lower (default (py "json") (args !! py "format")) ≠ py "csv" →
  Api.get_locations net args now
  = Ok (locations_response now (IRRESLocationScraper.parse_locations html)).
Proof.
  intros Hfetch Hformat. unfold Api.get_locations, get_irres_locations.
  cbv zeta. rewrite (scrape_fetch_ok _ _ _ Hfetch). simpl.
  by rewrite bool_decide_eq_false_2.
Qed.

(** With a fetch that raises, [scrape] has turned the exception into a
    dictionary, whose status the route does not read: it answers 200,
    with the status ["success"] and no location. *)
Lemma api_get_locations_fetch_error net args now e :
  IRRESLocationScraper.fetch_page net (IRRESLocationScraper.init 10)
  = Raise e →
  is_Exception e = true →
  lower (default (py "json") (args !! py "format")) ≠ py "csv" →
  Api.get_locations net args now = Ok (locations_response now []).
Proof.
  intros Hfetch He Hformat. unfold Api.get_locations, get_irres_locations.
  cbv zeta. rewrite (scrape_fetch_raise _ _ _ Hfetch), He. simpl.
  by rewrite bool_decide_eq_false_2.
Qed.

(** The route of the office images reads the status, and answers 500
    when the fetch raises. *)
Lemma api_get_office_images_fetch_error net now e :
  IRRESOfficeImagesScraper.fetch_page net (IRRESOfficeImagesScraper.init 10)
  = Raise e →
  is_Exception e = true →
  http_status <$> Api.get_office_images net now = Ok 500%Z.
Proof.
  intros Hfetch He. unfold Api.get_office_images, get_irres_office_images.
  unfold IRRESOfficeImagesScraper.scrape. cbv zeta.
  rewrite Hfetch. simpl. rewrite He. by vm_compute.
Qed.

(** [GET /locations/labels]: an empty extraction raises the 404
    inside the [try], where [except Exception] catches it and raises a
    500 in its place; a non-empty one returns the labels. *)
Lemma get_location_labels_empty net :
  App.IrresLocationScraper.get_locations net = Ok [] →
  App.get_location_labels net
  = Raise (HTTPException 500
             (py "404: No locations found or error fetching data")).
Proof. unfold App.get_location_labels. by intros ->. Qed.

Lemma get_location_labels_nonempty net location locations :
  App.IrresLocationScraper.get_locations net = Ok (location :: locations) →
  App.get_location_labels net
  = Ok (App.label <$> location :: locations).
Proof. unfold App.get_location_labels. by intros ->. Qed.

Lemma get_location_labels_never_404 net :
  App.response_status (App.get_location_labels net) ≠ 404%Z.
Proof.
  unfold App.get_location_labels.
  destruct (App.IrresLocationScraper.get_locations net)
    as [[|location locations]|e]; simpl; [done..|].
  by destruct (is_Exception e) eqn:He; [|destruct e].
Qed.

(** The route [GET /locations] of [app.py] answers 500 when the fetch
    raises a network error, as it does for every empty extraction. *)
Lemma app_get_locations_fetch_error net msg :
  net App.IrresLocationScraper.base_url = Raise (RequestException msg) →
  App.response_status (App.get_locations net) = 500%Z.
Proof.
  intros Hnet. unfold App.get_locations.
  unfold App.IrresLocationScraper.get_locations.
  unfold App.IrresLocationScraper.fetch_page. by rewrite Hnet.
Qed.

(** C3, at a connection that fails, the request asking for the JSON
    format: [GET /api/locations] answers 200 with the status
    ["success"] and an empty list, not 500. *)
Theorem api_get_locations_unreachable_answers_200 :
  Api.get_locations (env:=sample_env filter_page) unreachable ∅
    (py "2026-11-03T12:00:00")
  = Ok (locations_response (py "2026-11-03T12:00:00") [])
  ∧ http_status (locations_response (py "2026-11-03T12:00:00") [])
    = 200%Z.
Proof. by vm_compute. Qed.

(** C7, at a page fetched without a filter list, the extraction being
    empty: [GET /locations/labels] answers 500, not 404. *)
Theorem get_location_labels_empty_answers_500 :
  App.IrresLocationScraper.get_locations (env:=sample_env contact_page)
    (serves (py "<picture>")) = Ok []
  ∧ App.response_status
      (App.get_location_labels (env:=sample_env contact_page)
         (serves (py "<picture>"))) = 500%Z.
Proof. by vm_compute. Qed.

(** A page with a filter list is answered with 200 and the labels. *)
Example get_location_labels_search_page :
  App.get_location_labels (env:=sample_env search_page)
    (serves (py "<ul>"))
  = Ok [py "Gent"; py "Latem"].
Proof. by vm_compute. Qed.
End routes.

(** * Further properties of the code *)

(** ** Trimming *)

Lemma rev_reverse {A} (l : list A) : rev l = reverse l.
Proof. unfold reverse. apply rev_alt. Qed.

Lemma lstrip_head s c : head (lstrip s) = Some c → isspace c = false.
Proof.
  induction s as [|b s IH]; simpl; [done|].
  destruct (isspace b) eqn:Hb; [done|]. by intros [= <-].
Qed.

Lemma lstrip_suffix s : ∃ k, s = k ++ lstrip s.
Proof.
  induction s as [|b s [k Hk]]; simpl; [by exists []|].
  destruct (isspace b); [|by exists []].
  exists (b :: k). simpl. by f_equal.
Qed.

Lemma lstrip_last s c : last (lstrip s) = Some c → last s = Some c.
Proof.
  destruct (lstrip_suffix s) as [k Hk]. intros Hlast.
  rewrite Hk, last_app. by rewrite Hlast.
Qed.

Lemma strip_head s c : head (strip s) = Some c → isspace c = false.
Proof.
  unfold strip, rstrip. rewrite !rev_reverse, head_reverse.
  intros Hlast%lstrip_last. rewrite last_reverse in Hlast.
  by apply lstrip_head in Hlast.
Qed.

Lemma strip_last s c : last (strip s) = Some c → isspace c = false.
Proof.
  unfold strip, rstrip. rewrite !rev_reverse, last_reverse.
  apply lstrip_head.
Qed.

(** ** More on the location extractor *)

Section locations_more.
Context {env : PyEnv}.
Import IRRESLocationScraper.

Lemma elem_of_data_labels html x :
  x ∈ data_labels html
  ↔ ∃ e, e ∈ find_all_attrs (py "data-label") (BeautifulSoup html)
         ∧ x = strip (get e (py "data-label") []).
Proof.
  unfold data_labels. rewrite list_elem_of_fmap.
  split; intros (e & ? & ?); eauto.
Qed.

(** X1.  No entry of the output of [parse_locations] is empty, and none
    starts or ends with a whitespace character. *)
Theorem parse_locations_entries_trimmed html s :
  s ∈ parse_locations html →
  s ≠ []
  ∧ (∀ c, head s = Some c → isspace c = false)
  ∧ (∀ c, last s = Some c → isspace c = false).
Proof.
  intros (e & _ & -> & Hkept)%parse_locations_entries. split_and!.
  - intros Hnil. apply Hkept. by left.
  - apply strip_head.
  - apply strip_last.
Qed.

Lemma StronglySorted_lookup {A} (R : relation A) l (i j : nat) x y :
  StronglySorted R l →
  (i < j)%nat → l !! i = Some x → l !! j = Some y → R x y.
Proof.
  intros Hsorted. revert i j.
  induction Hsorted as [|a l _ IH Hall]; intros i j Hij Hi Hj; [done|].
  destruct j as [|j]; [lia|]. simpl in Hj.
  destruct i as [|i]; simpl in Hi.
  - injection Hi as ->. rewrite Forall_forall in Hall.
    apply Hall, list_elem_of_lookup. eauto.
  - apply (IH i j); [lia|done..].
Qed.

(** X2.  In the output of [parse_locations] an entry is strictly smaller,
    in the order of code points, than every entry after it. *)
Theorem parse_locations_strictly_ascending html (i j : nat) x y :
  (i < j)%nat →
  parse_locations html !! i = Some x →
  parse_locations html !! j = Some y →
  str_lt x y.
Proof.
  intros Hij Hi Hj.
  assert (NoDup (parse_locations html)) as Hnodup.
  { unfold parse_locations. cbv zeta.
    rewrite sorted_Permutation. apply NoDup_elements. }
  assert (str_le x y) as Hle.
  { apply (StronglySorted_lookup str_le (parse_locations html) i j);
      [|done..].
    apply Sorted_StronglySorted; [apply _|apply sorted_Sorted]. }
  unfold str_lt, str_ltb. apply negb_true_iff, not_true_is_false.
  intros Hge. assert (x = y) as -> by by apply str_leb_antisym.
  pose proof (NoDup_lookup _ _ _ _ Hnodup Hi Hj). lia.
Qed.

(** X3.  The output of [parse_locations] depends on the set of trimmed
    labels only: two documents that carry the same labels, in whatever
    order, number and place, give the same list. *)
Theorem parse_locations_same_labels html1 html2 :
  (∀ x, x ∈ data_labels html1 ↔ x ∈ data_labels html2) →
  parse_locations html1 = parse_locations html2.
Proof.
  intros Hlabels. unfold parse_locations. cbv zeta. do 2 f_equal.
  apply set_eq. intros x. rewrite !elem_of_locations_set.
  split; intros (e & He & Hx & Hkeep).
  - assert (x ∈ data_labels html2) as (e' & ? & ?)%elem_of_data_labels
      by (apply Hlabels, elem_of_data_labels; eauto).
    eauto.
  - assert (x ∈ data_labels html1) as (e' & ? & ?)%elem_of_data_labels
      by (apply Hlabels, elem_of_data_labels; eauto).
    eauto.
Qed.

(** X4.  [parse_locations] returns at most as many entries as there are
    elements with the attribute [data-label]. *)
Theorem parse_locations_length html :
  (length (parse_locations html)
   ≤ length (find_all_attrs (py "data-label") (BeautifulSoup html)))%nat.
Proof.
  rewrite <-(length_fmap (λ e, strip (get e (py "data-label") []))).
  apply submseteq_length, NoDup_submseteq.
  - unfold parse_locations. cbv zeta.
    rewrite sorted_Permutation. apply NoDup_elements.
  - intros x (e & ? & ? & _)%parse_locations_entries.
    apply (elem_of_data_labels html). eauto.
Qed.
End locations_more.

Lemma parse_locations_entries_trimmed_witness :
  let env := sample_env filter_page in
  py "Gent" ≠ []
  ∧ (∀ c, head (py "Gent") = Some c → isspace c = false)
  ∧ (∀ c, last (py "Gent") = Some c → isspace c = false).
Proof.
  intros env.
  apply (parse_locations_entries_trimmed (env:=env) (py "<ul>")).
  apply list_elem_of_In. vm_compute. tauto.
Defined.

Lemma parse_locations_strictly_ascending_witness :
  str_lt (py "Gent") (py "Latem").
Proof.
  apply (parse_locations_strictly_ascending (env:=sample_env filter_page)
           (py "<ul>") 0 1); [lia|reflexivity..].
Defined.

Lemma parse_locations_same_labels_witness :
  let env :=
    pages_env [(py "<ul>", filter_page); (py "<div>", shuffled_filter_page)]
  in
  IRRESLocationScraper.parse_locations (py "<ul>")
  = IRRESLocationScraper.parse_locations (py "<div>").
Proof.
  intros env. apply (parse_locations_same_labels (env:=env)).
  intros x. rewrite <-!(elem_of_list_to_set (C:=gset str)).
  replace (list_to_set (data_labels (py "<ul>")))
    with (list_to_set (C:=gset str) (data_labels (py "<div>")))
    by (by vm_compute).
  done.
Defined.

(** ** More on the scraper object *)

Section scrape_more.
Context {env : PyEnv}.
Import IRRESLocationScraper.

(** X5.  [fetch_page] returns a body exactly when [requests.get] returns
    a response whose status is not a 4xx or 5xx one, and the body is the
    text of that response. *)
Theorem fetch_page_returns net self html :
  fetch_page net self = Ok html
  ↔ ∃ response,
      net BASE_URL = Ok response
      ∧ ¬ (400 ≤ status_code response < 600)%Z
      ∧ text response = html.
Proof.
  unfold fetch_page, raise_for_status.
  destruct (net BASE_URL) as [response|e]; simpl.
  - destruct (400 <=? status_code response)%Z eqn:Hlo;
      destruct (status_code response <? 600)%Z eqn:Hhi; simpl;
      try apply Z.leb_le in Hlo; try apply Z.leb_gt in Hlo;
      try apply Z.ltb_lt in Hhi; try apply Z.ltb_ge in Hhi.
    + split; [done|]. intros (r & [= <-] & Hstatus & _). lia.
    + split.
      * intros [= <-]. exists response. split_and!; [done|lia|done].
      * by intros (r & [= <-] & _ & <-).
    + split.
      * intros [= <-]. exists response. split_and!; [done|lia|done].
      * by intros (r & [= <-] & _ & <-).
    + split.
      * intros [= <-]. exists response. split_and!; [done|lia|done].
      * by intros (r & [= <-] & _ & <-).
  - split.
    + by destruct (is_RequestException e).
    + by intros (r & ? & _).
Qed.

(** X6.  What [scrape] gives back: a dictionary whose count is the
    number of its locations, with the status ["success"], no error and
    the list now stored in the object, or with the status ["error"], no
    location and an error message; it raises only what does not derive
    from [Exception], the object then being unchanged. *)
Theorem scrape_result_shape net self :
  match (scrape net self).2 with
  | Ok r =>
      LocationsResult.count r = length (LocationsResult.locations r)
      ∧ ((LocationsResult.status r = py "success"
          ∧ LocationsResult.error r = None
          ∧ LocationsResult.locations r
            = get_locations (scrape net self).1)
         ∨ (LocationsResult.status r = py "error"
            ∧ LocationsResult.locations r = []
            ∧ is_Some (LocationsResult.error r)))
  | Raise e => is_Exception e = false ∧ (scrape net self).1 = self
  end.
Proof.
  destruct (fetch_page net self) as [html|e] eqn:Hfetch.
  - rewrite (scrape_fetch_ok _ _ _ Hfetch). simpl. auto.
  - rewrite (scrape_fetch_raise _ _ _ Hfetch). simpl.
    destruct (is_Exception e) eqn:He; simpl; eauto 10.
Qed.

(** X7.  Nothing accumulates in the object: on two objects with the
    same timeout, whatever lists they store, [scrape] returns the same
    dictionary; it leaves the timeout as it is; and a second call on the
    same network changes nothing. *)
Theorem scrape_no_accumulation net self self' :
  timeout self = timeout self' →
  (scrape net self).2 = (scrape net self').2
  ∧ timeout (scrape net self).1 = timeout self
  ∧ scrape net (scrape net self).1 = scrape net self.
Proof.
  intros _.
  assert (fetch_page net self' = fetch_page net self) as Hself' by done.
  assert (fetch_page net (scrape net self).1 = fetch_page net self)
    as Hagain by done.
  destruct (fetch_page net self) as [html|e] eqn:Hfetch.
  - rewrite (scrape_fetch_ok _ _ _ Hself').
    rewrite (scrape_fetch_ok _ _ _ Hagain).
    by rewrite (scrape_fetch_ok _ _ _ Hfetch).
  - rewrite (scrape_fetch_raise _ _ _ Hself').
    rewrite (scrape_fetch_raise _ _ _ Hagain).
    by rewrite (scrape_fetch_raise _ _ _ Hfetch).
Qed.
End scrape_more.

(** ** More on the office images *)

Lemma lstrip_char_head x s : head (lstrip_char x s) ≠ Some x.
Proof.
  induction s as [|c s IH]; simpl; [done|].
  destruct (N.eqb_spec c x); [done|]. simpl. congruence.
Qed.

Lemma split_nonempty s first rest : split s = first :: rest → s ≠ [].
Proof. by intros Hsplit ->. Qed.

Section office_images_more.
Context {env : PyEnv}.
Import IRRESOfficeImagesScraper.

(** What a picture that has an entry is made of. *)
Lemma office_entry_inv picture key address :
  office_entry picture = Some (key, address) →
  (key = IrresLatemImage ∨ key = IrresDestelbergenImage)
  ∧ ∃ img first rest,
      find (py "img") picture = Some img
      ∧ split (get img (py "srcset") []) = first :: rest
      ∧ address = py "https://irres.be/" ++ lstrip_char 0x2F first.
Proof.
  unfold office_entry.
  destruct (find (py "img") picture) as [img|]; simpl; [|done].
  destruct (split (get img (py "srcset") [])) as [|first rest] eqn:Hsplit;
    simpl; [done|].
  repeat match goal with |- context [if ?b then _ else _] =>
    destruct b end; intros [= <- <-] || done; eauto 10.
Qed.

Lemma last_match_Some key pictures address :
  last_match key pictures = Some address →
  ∃ picture, picture ∈ pictures ∧ office_entry picture = Some (key, address).
Proof.
  unfold last_match. intros ([k a] & Hlast & ->)%fmap_Some. simpl.
  apply last_Some in Hlast as [l Hl].
  assert ((k, a) ∈ List.filter (λ kv, bool_decide (kv.1 = key))
                      (omap office_entry pictures)) as Hin.
  { rewrite Hl. apply elem_of_app. right. apply list_elem_of_here. }
  apply list_elem_of_In, filter_In in Hin as [Hin Hkey].
  apply bool_decide_eq_true in Hkey. simpl in Hkey. subst k.
  apply list_elem_of_In, list_elem_of_omap in Hin. done.
Qed.

Lemma parse_office_images_lookup html images key address :
  parse_office_images html = Ok images →
  images !! key = Some address →
  ∃ picture,
    picture ∈ find_all (py "picture") (BeautifulSoup html)
    ∧ office_entry picture = Some (key, address).
Proof.
  unfold parse_office_images. cbv zeta. intros Hparse.
  rewrite (parse_pictures_last_match _ _ _ key Hparse).
  destruct (last_match _ _) as [a|] eqn:Hlast; [|done].
  intros [= <-]. by apply last_match_Some.
Qed.

(** X8.  A mapping returned by [parse_office_images] has no key but the
    two office keys, hence two entries at most. *)
Theorem parse_office_images_keys html images :
  parse_office_images html = Ok images →
  dom images ⊆ {[ IrresLatemImage; IrresDestelbergenImage ]}
  ∧ (size images ≤ 2)%nat.
Proof.
  intros Hparse.
  assert (dom images ⊆@{gset str}
            {[ IrresLatemImage; IrresDestelbergenImage ]}) as Hdom.
  { intros key [address Hkey]%elem_of_dom.
    destruct (parse_office_images_lookup _ _ _ _ Hparse Hkey)
      as (picture & _ & [[-> | ->] _]%office_entry_inv); set_solver. }
  split; [done|]. rewrite <-size_dom.
  by apply subseteq_size in Hdom.
Qed.

(** X9.  Every address in a mapping returned by [parse_office_images] is
    the origin of the site followed by the first token of the source set
    of the image of some picture element, without its leading slashes. *)
Theorem parse_office_images_addresses html images key address :
  parse_office_images html = Ok images →
  images !! key = Some address →
  ∃ picture img first rest url,
    picture ∈ find_all (py "picture") (BeautifulSoup html)
    ∧ find (py "img") picture = Some img
    ∧ split (get img (py "srcset") []) = first :: rest
    ∧ url = lstrip_char 0x2F first
    ∧ head url ≠ Some 0x2F
    ∧ address = py "https://irres.be/" ++ url.
Proof.
  intros Hparse Hkey.
  destruct (parse_office_images_lookup _ _ _ _ Hparse Hkey)
    as (picture & Hpicture & Hentry).
  apply office_entry_inv in Hentry
    as (_ & img & first & rest & Himg & Hsplit & ->).
  exists picture, img, first, rest, (lstrip_char 0x2F first).
  split_and!; [done..|apply lstrip_char_head|done].
Qed.

(** On a document built, the loop raises exactly when the image of some
    picture element has a source set that is not empty and holds only
    whitespace, and what it raises is the [IndexError]. *)
Lemma parse_office_images_raises html e :
  parse_office_images html = Raise e
  ↔ e = IndexError (py "list index out of range")
    ∧ ∃ picture,
        picture ∈ find_all (py "picture") (BeautifulSoup html)
        ∧ blank_srcset picture = true.
Proof.
  unfold parse_office_images. cbv zeta.
  set (pictures := find_all (py "picture") (BeautifulSoup html)).
  destruct (existsb blank_srcset pictures) eqn:Hblank.
  - apply existsb_elem_of in Hblank.
    rewrite (parse_pictures_blank _ _ Hblank). split.
    + by intros [= <-].
    + by intros [-> _].
  - assert (∀ p, p ∈ pictures → blank_srcset p = false) as Hnone.
    { intros p Hp. apply not_true_is_false. intros Hp'.
      apply not_true_iff_false in Hblank. apply Hblank.
      apply existsb_elem_of. eauto. }
    destruct (parse_pictures_not_blank ∅ _ Hnone) as [images ->]. split.
    + done.
    + intros [_ (p & Hp & Hp')]. rewrite (Hnone p Hp) in Hp'. done.
Qed.

(** X11.  The Latem office comes first: a picture whose address holds
    one of its two marks, or whose alternate text in lower case holds
    [latem], is recorded under the Latem key, whatever marks of the
    Destelbergen office the address holds. *)
Theorem parse_picture_latem_first images picture img first rest :
  find (py "img") picture = Some img →
  split (get img (py "srcset") []) = first :: rest →
  contains (py "7723384") (lstrip_char 0x2F first)
  || contains (py "kerstgevel") (lstrip_char 0x2F first)
  || contains (py "latem") (lower (get img (py "alt") [])) = true →
  parse_picture images picture
  = Ok (<[IrresLatemImage :=
            py "https://irres.be/" ++ lstrip_char 0x2F first]> images).
Proof.
  intros Himg Hsplit Hlatem. unfold parse_picture.
  rewrite Himg. cbv zeta.
  assert (truthy (get img (py "srcset") []) = true) as Htruthy
    by (apply truthy_nonempty; by eapply split_nonempty).
  rewrite Htruthy, Hsplit. simpl. by rewrite Hlatem.
Qed.

(** X12.  What [scrape] gives back for the office images: a dictionary
    whose count is the number of its images, with the status
    ["success"] and the mapping parsed from the page fetched, or with
    the status ["error"], no image and an error message; it raises only
    what does not derive from [Exception]. *)
Theorem office_scrape_result_shape net self :
  match scrape net self with
  | Ok r =>
      ImagesResult.count r = size (ImagesResult.images r)
      ∧ ((ImagesResult.status r = py "success"
          ∧ ImagesResult.error r = None
          ∧ ∃ html, fetch_page net self = Ok html
                    ∧ parse_office_images html
                      = Ok (ImagesResult.images r))
         ∨ (ImagesResult.status r = py "error"
            ∧ ImagesResult.images r = ∅
            ∧ is_Some (ImagesResult.error r)))
  | Raise e => is_Exception e = false
  end.
Proof.
  unfold scrape.
  destruct (fetch_page net self) as [html|e] eqn:Hfetch; simpl.
  - destruct (parse_office_images html) as [images|e] eqn:Hparse; simpl.
    + split; [done|]. left. eauto.
    + destruct (is_Exception e) eqn:He; simpl; [|done].
      split; [done|]. right. eauto.
  - destruct (is_Exception e) eqn:He; simpl; [|done].
    split; [done|]. right. eauto.
Qed.

(** X13.  No partial result: when the page fetched has a picture whose
    source set is blank, [scrape] returns the error dictionary without
    any image, whatever the other pictures of the page match. *)
Theorem office_scrape_blank_srcset net self html :
  fetch_page net self = Ok html →
  (∃ picture,
     picture ∈ find_all (py "picture") (BeautifulSoup html)
     ∧ blank_srcset picture = true) →
  scrape net self
  = Ok (ImagesResult.mk (py "error") ∅ 0
          (Some (py "list index out of range"))).
Proof.
  intros Hfetch Hblank. unfold scrape, parse_office_images.
  rewrite Hfetch. simpl. by rewrite (parse_pictures_blank _ _ Hblank).
Qed.
End office_images_more.

Lemma parse_office_images_keys_witness :
  let env := sample_env mixed_page in
  ∃ images,
    IRRESOfficeImagesScraper.parse_office_images (py "<picture>") = Ok images
    ∧ dom images ⊆ {[ IrresLatemImage; IrresDestelbergenImage ]}
    ∧ (size images ≤ 2)%nat.
Proof.
  intros env.
  destruct (IRRESOfficeImagesScraper.parse_office_images (py "<picture>"))
    as [images|e] eqn:Hparse; [|by vm_compute in Hparse].
  exists images. split; [done|].
  exact (parse_office_images_keys (env:=env) _ _ Hparse).
Defined.

Lemma parse_office_images_addresses_witness :
  let env := sample_env contact_page in
  ∃ images picture img first rest url,
    IRRESOfficeImagesScraper.parse_office_images (py "<picture>") = Ok images
    ∧ picture ∈ find_all (py "picture") (BeautifulSoup (py "<picture>"))
    ∧ find (py "img") picture = Some img
    ∧ split (get img (py "srcset") []) = first :: rest
    ∧ url = lstrip_char 0x2F first
    ∧ head url ≠ Some 0x2F
    ∧ py "https://irres.be/img/destelbergen-b.jpg"
      = py "https://irres.be/" ++ url.
Proof.
  intros env.
  destruct (IRRESOfficeImagesScraper.parse_office_images (py "<picture>"))
    as [images|e] eqn:Hparse; [|by vm_compute in Hparse].
  assert (images !! IrresDestelbergenImage
          = Some (py "https://irres.be/img/destelbergen-b.jpg")) as Hkey.
  { revert Hparse. vm_compute. by intros [= <-]. }
  destruct (parse_office_images_addresses (env:=env) _ _ _ _ Hparse Hkey)
    as (picture & img & first & rest & url & H).
  by exists images, picture, img, first, rest, url.
Defined.

Lemma parse_picture_latem_first_witness :
  let env := sample_env mixed_page in
  IRRESOfficeImagesScraper.parse_picture ∅
    (picture (py "//img/destelbergen-7723383.jpg 800w") (py "Kantoor Latem"))
  = Ok {[ IrresLatemImage :=
            py "https://irres.be/img/destelbergen-7723383.jpg" ]}.
Proof.
  intros env.
  apply (parse_picture_latem_first (env:=env) ∅ _
           (Tag (py "img")
              {[ py "srcset" := py "//img/destelbergen-7723383.jpg 800w";
                 py "alt" := py "Kantoor Latem" ]} [])
           (py "//img/destelbergen-7723383.jpg") [py "800w"]);
    reflexivity.
Defined.

Lemma office_scrape_blank_srcset_witness :
  let env := sample_env partly_blank_page in
  IRRESOfficeImagesScraper.scrape (serves (py "<picture>"))
    (IRRESOfficeImagesScraper.init 10)
  = Ok (ImagesResult.mk (py "error") ∅ 0
          (Some (py "list index out of range"))).
Proof.
  intros env.
  apply (office_scrape_blank_srcset (env:=env) _ _ (py "<picture>"));
    [reflexivity|].
  exists (picture (py " ") (py "Latem")). split; [|reflexivity].
  apply list_elem_of_In. vm_compute. tauto.
Defined.

(** ** More on the routes of api.py *)

Lemma split_on_no_sep sep a : sep ∉ a → split_on sep a = [a].
Proof.
  induction a as [|c a IH]; simpl; [done|].
  intros [Hc Ha]%not_elem_of_cons.
  destruct (N.eqb_spec c sep); [congruence|]. by rewrite IH.
Qed.

Lemma split_on_app sep a b :
  sep ∉ a → split_on sep (a ++ sep :: b) = a :: split_on sep b.
Proof.
  induction a as [|c a IH]; simpl.
  - by rewrite N.eqb_refl.
  - intros [Hc Ha]%not_elem_of_cons.
    destruct (N.eqb_spec c sep); [congruence|]. by rewrite IH.
Qed.

Lemma split_on_join sep lines :
  (∀ l, l ∈ lines → sep ∉ l) →
  lines ≠ [] →
  split_on sep (join [sep] lines) = lines.
Proof.
  induction lines as [|l lines IH]; intros Hlines Hne; [done|].
  assert (sep ∉ l) by apply Hlines, list_elem_of_here.
  destruct lines as [|l' lines]; [by apply split_on_no_sep|].
  change (join [sep] (l :: l' :: lines))
    with (l ++ sep :: join [sep] (l' :: lines)).
  rewrite split_on_app by done. f_equal. apply IH; [|done].
  intros ? ?. by apply Hlines, list_elem_of_further.
Qed.

Section api_more.
Context {env : PyEnv}.

(** X14.  [GET /api/locations] answers 200 whatever happens to the
    fetch: its error branch, the 500, is taken for no exception that
    derives from [Exception], and it raises only what does not. *)
Theorem api_get_locations_always_200 net args now :
  match Api.get_locations net args now with
  | Ok response => http_status response = 200%Z
  | Raise e => is_Exception e = false
  end.
Proof.
  unfold Api.get_locations, get_irres_locations. cbv zeta.
  destruct (IRRESLocationScraper.fetch_page net
              (IRRESLocationScraper.init 10)) as [html|e] eqn:Hfetch.
  - rewrite (scrape_fetch_ok _ _ _ Hfetch). simpl.
    by destruct (bool_decide _).
  - rewrite (scrape_fetch_raise _ _ _ Hfetch).
    destruct (is_Exception e) eqn:He; simpl.
    + by destruct (bool_decide _).
    + by rewrite He.
Qed.


(** X16.  The CSV body read back: when no location holds a line feed,
    the lines of the body are the header [location] followed by the
    locations in their order; for no location at all, the header is
    followed by one empty line.  The answer is a 200 of type
    [text/csv]. *)
Theorem format_csv_response_lines locations :
  (∀ l, l ∈ locations → 0x0A ∉ l) →
  ∃ csv_content,
    content (Api.format_csv_response locations) = Text csv_content
    ∧ split_on 0x0A csv_content
      = py "location" :: match locations with
                         | [] => [[]]
                         | _ => locations
                         end
    ∧ http_status (Api.format_csv_response locations) = 200%Z
    ∧ mimetype (Api.format_csv_response locations) = py "text/csv".
Proof.
  intros Hlocations. eexists. split; [reflexivity|]. split; [|done].
  assert (0x0A ∉ py "location") as Hheader
    by (apply (bool_decide_unpack _); by vm_compute).
  rewrite <-app_assoc. simpl ([_] ++ _).
  rewrite split_on_app by done. f_equal.
  destruct locations as [|l locations]; [done|].
  by apply split_on_join.
Qed.

End api_more.


Lemma format_csv_response_lines_witness :
  ∃ csv_content,
    content (Api.format_csv_response [py "Gent"; py "Latem"])
    = Text csv_content
    ∧ split_on 0x0A csv_content = [py "location"; py "Gent"; py "Latem"].
Proof.
  destruct (format_csv_response_lines [py "Gent"; py "Latem"])
    as (csv_content & Hcontent & Hlines & _).
  - intros l Hl. apply (bool_decide_unpack _).
    apply list_elem_of_In in Hl. simpl in Hl.
    destruct Hl as [<-|[<-|[]]]; by vm_compute.
  - by exists csv_content.
Defined.

(** ** More on app.py *)

Lemma strip_trimmed s : trimmed (strip s).
Proof. split; [apply strip_head|apply strip_last]. Qed.

Section app_more.
Context {env : PyEnv}.
Import App.

(** X18.  [fetch_page] of [app.py] turns a network error into [None]: it
    returns the body of a response whose status is not a 4xx or 5xx one,
    [None] when [requests.get] raises a [RequestException] or the status
    is such a one, and it raises only what is not a
    [RequestException]. *)
Theorem app_fetch_page_cases net :
  match IrresLocationScraper.fetch_page net with
  | Ok (Some html) =>
      ∃ response,
        net IrresLocationScraper.base_url = Ok response
        ∧ ¬ (400 ≤ status_code response < 600)%Z
        ∧ text response = html
  | Ok None =>
      (∃ msg,
         net IrresLocationScraper.base_url = Raise (RequestException msg))
      ∨ ∃ response,
          net IrresLocationScraper.base_url = Ok response
          ∧ (400 ≤ status_code response < 600)%Z
  | Raise e =>
      net IrresLocationScraper.base_url = Raise e
      ∧ is_RequestException e = false
  end.
Proof.
  unfold IrresLocationScraper.fetch_page, raise_for_status.
  destruct (net IrresLocationScraper.base_url) as [response|e]; simpl.
  - destruct (400 <=? status_code response)%Z eqn:Hlo;
      destruct (status_code response <? 600)%Z eqn:Hhi; simpl;
      try apply Z.leb_le in Hlo; try apply Z.leb_gt in Hlo;
      try apply Z.ltb_lt in Hhi; try apply Z.ltb_ge in Hhi.
    + right. exists response. split; [done|lia].
    + exists response. split_and!; [done|lia|done].
    + exists response. split_and!; [done|lia|done].
    + exists response. split_and!; [done|lia|done].
  - destruct e; simpl; eauto.
Qed.

Lemma extract_locations_elem html location :
  location ∈ IrresLocationScraper.extract_locations html →
  label location ≠ [] ∧ value location ≠ []
  ∧ ∃ location_ul item,
      head (List.filter IrresLocationScraper.is_location_ul
              (descendants (BeautifulSoup html))) = Some location_ul
      ∧ item ∈ find_all (py "li") location_ul
      ∧ label location = strip (get item (py "data-label") [])
      ∧ value location = strip (get item (py "data-value") [])
      ∧ display_text location = get_text_strip item.
Proof.
  unfold IrresLocationScraper.extract_locations. cbv zeta.
  destruct (head _) as [location_ul|]; [|by intros ?%elem_of_nil].
  intros [Hin Hboth]%list_elem_of_In%filter_In.
  apply andb_true_iff in Hboth as [Hlabel%truthy_nonempty Hvalue%truthy_nonempty].
  apply in_map_iff in Hin as (item & <- & Hitem%list_elem_of_In).
  split_and!; [done..|]. by exists location_ul, item.
Qed.

(** X19.  Every location that [extract_locations] returns has a label
    and a value that are not empty and are trimmed, read from one list
    item below the first list whose class holds [search-values]. *)
Theorem extract_locations_entries html location :
  location ∈ IrresLocationScraper.extract_locations html →
  label location ≠ [] ∧ trimmed (label location)
  ∧ value location ≠ [] ∧ trimmed (value location)
  ∧ ∃ location_ul item,
      head (List.filter IrresLocationScraper.is_location_ul
              (descendants (BeautifulSoup html))) = Some location_ul
      ∧ item ∈ find_all (py "li") location_ul
      ∧ label location = strip (get item (py "data-label") [])
      ∧ value location = strip (get item (py "data-value") []).
Proof.
  intros (Hlabel & Hvalue & location_ul & item & Hul & Hitem & Hl & Hv & _)
    %extract_locations_elem.
  split_and!; [done| |done| |].
  - rewrite Hl. apply strip_trimmed.
  - rewrite Hv. apply strip_trimmed.
  - by exists location_ul, item.
Qed.


(** X21.  [get_locations] of the scraper of [app.py] returns the empty
    list when the request raises a [RequestException], when the status
    of the response is a 4xx or 5xx one, and when the body is empty. *)
Theorem app_get_locations_failure net :
  (∃ msg, net IrresLocationScraper.base_url = Raise (RequestException msg))
  ∨ (∃ response,
       net IrresLocationScraper.base_url = Ok response
       ∧ ((400 ≤ status_code response < 600)%Z ∨ text response = [])) →
  IrresLocationScraper.get_locations net = Ok [].
Proof.
  unfold IrresLocationScraper.get_locations.
  unfold IrresLocationScraper.fetch_page, raise_for_status.
  intros [[msg ->]|(response & -> & Hresponse)]; [done|]. simpl.
  destruct ((400 <=? status_code response)%Z
            && (status_code response <? 600)%Z) eqn:Hstatus; simpl; [done|].
  destruct Hresponse as [[Hlo Hhi]| ->]; [|done].
  apply Z.leb_le in Hlo. apply Z.ltb_lt in Hhi.
  by rewrite Hlo, Hhi in Hstatus.
Qed.

(** X22.  The three routes of [app.py] on one extraction: the count
    route answers 200 with the number of locations, also for none; the
    two other routes answer 200 when there is a location and 500 when
    there is none. *)
Theorem app_routes_status net locations :
  IrresLocationScraper.get_locations net = Ok locations →
  get_location_count net = Ok (length locations)
  ∧ response_status (get_location_count net) = 200%Z
  ∧ response_status (get_locations net)
    = (if locations is [] then 500 else 200)%Z
  ∧ response_status (get_location_labels net)
    = (if locations is [] then 500 else 200)%Z.
Proof.
  intros Hlocations.
  unfold get_location_count, get_locations, get_location_labels.
  rewrite Hlocations. by destruct locations.
Qed.

(** X23.  A list of labels returned by [GET /locations/labels] is not
    empty, holds no empty label, and is the list of the labels of the
    locations that [GET /locations] returns, in their order. *)
Theorem get_location_labels_returned net labels :
  get_location_labels net = Ok labels →
  labels ≠ []
  ∧ (∀ l, l ∈ labels → l ≠ [] ∧ trimmed l)
  ∧ ∃ locations,
      get_locations net = Ok locations ∧ labels = label <$> locations.
Proof.
  unfold get_location_labels, get_locations.
  destruct (IrresLocationScraper.get_locations net)
    as [[|location locations]|e] eqn:Hlocations; simpl.
  - done.
  - intros [= <-]. split_and!; [done| |eauto].
    intros l Hl. change (l ∈ label <$> location :: locations) in Hl.
    apply list_elem_of_fmap in Hl as (loc & -> & Hloc).
    assert (∃ html,
      location :: locations = IrresLocationScraper.extract_locations html)
      as [html Hhtml].
    { revert Hlocations. unfold IrresLocationScraper.get_locations.
      destruct (IrresLocationScraper.fetch_page net) as [[html|]|e'];
        simpl; [|done..].
      destruct (truthy html); [|done]. intros [= <-]. eauto. }
    rewrite Hhtml in Hloc.
    apply extract_locations_elem in Hloc
      as (Hne & _ & _ & item & _ & _ & Hl & _).
    split; [done|]. rewrite Hl. apply strip_trimmed.
  - by destruct (is_Exception e).
Qed.
End app_more.

Lemma extract_locations_entries_witness :
  trimmed (py "Gent") ∧ trimmed (py "gent").
Proof.
  pose (env := sample_env search_page).
  pose (location :=
          {| App.label := py "Gent"; App.value := py "gent";
             App.display_text := py "Gent" |}).
  assert (location
          ∈ App.IrresLocationScraper.extract_locations (env:=env) (py "<ul>"))
    as Hlocation.
  { apply list_elem_of_In. vm_compute. tauto. }
  destruct (extract_locations_entries (env:=env) _ _ Hlocation)
    as (_ & Hlabel & _ & Hvalue & _).
  exact (conj Hlabel Hvalue).
Defined.


Lemma app_get_locations_failure_witness :
  App.IrresLocationScraper.get_locations (env:=sample_env search_page)
    unreachable = Ok [].
Proof.
  apply (app_get_locations_failure (env:=sample_env search_page)).
  left. by exists (py "Connection refused").
Defined.

Lemma app_routes_status_witness :
  let env := sample_env search_page in
  App.get_location_count unreachable = Ok 0%nat
  ∧ App.response_status (App.get_location_count unreachable) = 200%Z
  ∧ App.response_status (App.get_locations unreachable) = 500%Z
  ∧ App.response_status (App.get_location_labels unreachable) = 500%Z.
Proof.
  intros env.
  apply (app_routes_status (env:=env) unreachable []). reflexivity.
Defined.

Lemma get_location_labels_returned_witness :
  let env := sample_env search_page in
  [py "Gent"; py "Latem"] ≠ []
  ∧ (∀ l, l ∈ [py "Gent"; py "Latem"] → l ≠ [] ∧ trimmed l)
  ∧ ∃ locations,
      App.get_locations (serves (py "<ul>")) = Ok locations
      ∧ [py "Gent"; py "Latem"] = App.label <$> locations.
Proof.
  intros env.
  apply (get_location_labels_returned (env:=env) (serves (py "<ul>"))).
  reflexivity.
Defined.

Lemma scrape_no_accumulation_witness :
  let env := sample_env filter_page in
  let self := IRRESLocationScraper.init 10 in
  let self' := IRRESLocationScraper.mk 10 [py "Deurle"] in
  (IRRESLocationScraper.scrape (serves (py "<ul>")) self).2
  = (IRRESLocationScraper.scrape (serves (py "<ul>")) self').2
  ∧ IRRESLocationScraper.timeout
      (IRRESLocationScraper.scrape (serves (py "<ul>")) self).1 = 10%Z
  ∧ IRRESLocationScraper.scrape (serves (py "<ul>"))
      (IRRESLocationScraper.scrape (serves (py "<ul>")) self).1
    = IRRESLocationScraper.scrape (serves (py "<ul>")) self.
Proof.
  intros env self self'.
  apply (scrape_no_accumulation (env:=env) (serves (py "<ul>")) self self').
  reflexivity.
Defined.

(** ** The digit test *)

(** C2, at a label that ends in the superscript two (U+00B2), which is a
    digit for [str.isdigit] and no decimal digit: none of the four tests
    of the specification discards the label, and it is absent from the
    output. *)
Lemma parse_locations_filter_superscript_counterexample :
  let env := latin1_env superscript_page in
  let html := py "<ul>" in
  let element := li (py "Gent" ++ [0xB2]) in
  let label := strip (get element (py "data-label") []) in
  element ∈ find_all_attrs (py "data-label") (BeautifulSoup html)
  ∧ ¬ discarded_as_specified label
  ∧ label ∉ IRRESLocationScraper.parse_locations html.
Proof.
  intros env html element label. split_and!.
  - apply list_elem_of_In. vm_compute. tauto.
  - intros [Hempty|[Hexcluded|[Heuro|Hdecimal]]].
    + by vm_compute in Hempty.
    + revert Hexcluded. apply (bool_decide_unpack _). by vm_compute.
    + revert Heuro. apply (bool_decide_unpack _). by vm_compute.
    + apply existsb_elem_of in Hdecimal. by vm_compute in Hdecimal.
  - apply (bool_decide_unpack _). by vm_compute.
Qed.

(** The same label is discarded by the test of the code. *)
Example superscript_label_discarded :
  discarded (env:=latin1_env superscript_page) (py "Gent" ++ [0xB2]).
Proof.
  do 3 right. exists 0xB2. split; [|done].
  apply list_elem_of_In. vm_compute. tauto.
Qed.

(** ** Markup that the parser rejects *)

Section rejected_markup.
Context {env : PyEnv}.

Lemma BeautifulSoup_or_raise_accepted html :
  parser_rejects html = false →
  BeautifulSoup_or_raise html = Ok (BeautifulSoup html).
Proof. unfold BeautifulSoup_or_raise. by intros ->. Qed.

Lemma BeautifulSoup_or_raise_rejected html :
  parser_rejects html = true →
  BeautifulSoup_or_raise html = Raise ParserRejectedMarkup.
Proof. unfold BeautifulSoup_or_raise. by intros ->. Qed.

Lemma parse_locations_or_raise_accepted html :
  parser_rejects html = false →
  IRRESLocationScraper.parse_locations_or_raise html
  = Ok (IRRESLocationScraper.parse_locations html).
Proof.
  intros Haccepted. unfold IRRESLocationScraper.parse_locations_or_raise.
  by rewrite BeautifulSoup_or_raise_accepted.
Qed.

(** C8, as amended.  For the empty markup, in which the parser finds no
    node, and for every markup that the parser accepts and in which no
    element carries the attribute [data-label], [parse_locations]
    returns the empty list and does not raise; on markup that the parser
    rejects it raises the exception of the constructor. *)
Theorem parse_locations_or_raise_without_labels :
  (parser_rejects [] = false → html_parser [] = [] →
   IRRESLocationScraper.parse_locations_or_raise [] = Ok [])
  ∧ (∀ html,
       parser_rejects html = false →
       (∀ e, e ∈ descendants (BeautifulSoup html) →
             has_attr (py "data-label") e = false) →
       IRRESLocationScraper.parse_locations_or_raise html = Ok [])
  ∧ ∀ html,
      parser_rejects html = true →
      IRRESLocationScraper.parse_locations_or_raise html
      = Raise ParserRejectedMarkup.
Proof.
  destruct parse_locations_without_labels as [Hempty Hnone]. split_and!.
  - intros Haccepted Hnil.
    rewrite parse_locations_or_raise_accepted by done. f_equal. auto.
  - intros html Haccepted Hhtml.
    rewrite parse_locations_or_raise_accepted by done. f_equal. auto.
  - intros html Hrejected.
    unfold IRRESLocationScraper.parse_locations_or_raise.
    by rewrite BeautifulSoup_or_raise_rejected.
Qed.

(** X10.  [parse_office_images] raises in two cases and no other: the
    parser rejects the markup, and the exception is that of the
    constructor; or the parser accepts it and the image of some picture
    element has a source set that is not empty and holds only whitespace,
    and the exception is the [IndexError]. *)
Theorem parse_office_images_or_raise_raises html e :
  IRRESOfficeImagesScraper.parse_office_images_or_raise html = Raise e
  ↔ (parser_rejects html = true ∧ e = ParserRejectedMarkup)
    ∨ (parser_rejects html = false
       ∧ e = IndexError (py "list index out of range")
       ∧ ∃ picture,
           picture ∈ find_all (py "picture") (BeautifulSoup html)
           ∧ blank_srcset picture = true).
Proof.
  unfold IRRESOfficeImagesScraper.parse_office_images_or_raise.
  destruct (parser_rejects html) eqn:Hrejects.
  - rewrite BeautifulSoup_or_raise_rejected by done. simpl. split.
    + intros [= <-]. by left.
    + by intros [[_ ->]|[? _]].
  - rewrite BeautifulSoup_or_raise_accepted by done.
    change (Ok (BeautifulSoup html) ≫= _)
      with (IRRESOfficeImagesScraper.parse_office_images html).
    rewrite parse_office_images_raises. split.
    + intros [-> ?]. by right.
    + by intros [[? _]|(_ & -> & ?)].
Qed.
End rejected_markup.

(** C8, at the markup [<![x]>], which holds no element and which the
    parser rejects: [parse_locations] raises. *)
Lemma parse_locations_rejected_markup_counterexample :
  let env := pages_env [] in
  let html := py "<![x]>" in
  (∀ e, e ∈ descendants (BeautifulSoup html) →
        has_attr (py "data-label") e = false)
  ∧ IRRESLocationScraper.parse_locations_or_raise html
    = Raise ParserRejectedMarkup
  ∧ IRRESLocationScraper.parse_locations_or_raise html ≠ Ok [].
Proof.
  intros env html. split_and!.
  - by intros e He%elem_of_nil.
  - by vm_compute.
  - by vm_compute.
Qed.

Lemma parse_locations_or_raise_without_labels_witness :
  IRRESLocationScraper.parse_locations_or_raise
    (env:=sample_env filter_page) [] = Ok []
  ∧ IRRESLocationScraper.parse_locations_or_raise
      (env:=sample_env contact_page) (py "<picture>") = Ok []
  ∧ IRRESLocationScraper.parse_locations_or_raise
      (env:=sample_env filter_page) (py "<![x]>")
    = Raise ParserRejectedMarkup.
Proof.
  split_and!.
  - destruct (parse_locations_or_raise_without_labels
                (env:=sample_env filter_page)) as (Hempty & _ & _).
    apply Hempty; reflexivity.
  - destruct (parse_locations_or_raise_without_labels
                (env:=sample_env contact_page)) as (_ & Hnone & _).
    apply Hnone; [reflexivity|].
    intros e He%list_elem_of_In. vm_compute in He.
    repeat (destruct He as [<-|He]; [by vm_compute|]). done.
  - destruct (parse_locations_or_raise_without_labels
                (env:=sample_env filter_page)) as (_ & _ & Hrejected).
    apply Hrejected. reflexivity.
Defined.
